(** * reportUtils: classification helpers for chat reports

    A shallow embedding of [src/libs/reportUtils.js] and the properties of
    its operations.

    Reports, report actions, personal details and policies are plain
    JavaScript objects.  They are modelled as records; a field that the code
    only tests, compares with [===] or hands back is a JavaScript primitive
    ([prim], with [PUndefined] for an absent field), a field the code looks
    into (an array, a nested object, a number it orders by) is an [option] of
    its type, [None] being the absent field.  A member access on [undefined]
    raises a [TypeError]; the operations in which such an access occurs
    return a [result]. *)

From stdpp Require Import base numbers list strings gmap sorting.

Local Open Scope Z_scope.
Local Open Scope string_scope.

(** ** JavaScript values and operators *)

Module JS.

(** Primitive values.  Numbers are the integers: no operation of the
    module does arithmetic on them. *)
Inductive prim : Type :=
| PUndefined
| PNull
| PBool (b : bool)
| PNum (n : Z)
| PStr (s : string).

#[global] Instance prim_eq_dec : EqDecision prim.
Proof. solve_decision. Defined.

(** ToBoolean *)
Definition truthy (v : prim) : bool :=
  match v with
  | PUndefined | PNull => false
  | PBool b => b
  | PNum n => negb (Z.eqb n 0)
  | PStr s => negb (String.eqb s "")
  end.

(** [a === b] on primitives *)
Definition strict_eq (a b : prim) : bool := bool_decide (a = b).

(** [a && b]: the first operand when it is falsy, the second otherwise *)
Definition and_ (a b : prim) : prim := if truthy a then b else a.

(** [s.substring(n)]: [s] without its first [n] characters *)
Fixpoint substring_from (n : nat) (s : string) : string :=
  match n, s with
  | O, _ => s
  | S _, EmptyString => EmptyString
  | S n', String _ s' => substring_from n' s'
  end.

(** [s.substring(0, n)]: the first [n] characters of [s] *)
Fixpoint substring_to (n : nat) (s : string) : string :=
  match n, s with
  | O, _ => EmptyString
  | S _, EmptyString => EmptyString
  | S n', String c s' => String c (substring_to n' s')
  end.

(** [strs.join(sep)] *)
Fixpoint join (sep : string) (strs : list string) : string :=
  match strs with
  | [] => ""
  | [s] => s
  | s :: rest => String.append s (String.append sep (join sep rest))
  end.

(** Exceptions *)
Inductive error : Type := TypeError.

Inductive result (A : Type) : Type :=
| Ok (a : A)
| Throw (e : error).
Arguments Ok {A} a.
Arguments Throw {A} e.

Definition bind {A B} (m : result A) (k : A -> result B) : result B :=
  match m with
  | Ok a => k a
  | Throw e => Throw e
  end.

Definition returns {A} (m : result A) : Prop := exists a, m = Ok a.

(** [o.f.g]: reading a member of the value of an optional field [o.f] *)
Definition member_of {A} (field : option A) : result A :=
  match field with
  | Some a => Ok a
  | None => Throw TypeError
  end.

End JS.
Import JS.

Notation "a &&& b" := (and_ a b) (at level 40, left associativity).
#[global] Instance result_ret : MRet result := @Ok.
#[global] Instance result_bind : MBind result := fun A B k m => bind m k.

(** ** lodash/get *)

Module Lodash.

(** [lodashGet(o, path, d)] hands back [d] when the value found along the
    path is [undefined], whether a field is absent on the way or at the
    end. *)
Definition or_default (v : prim) (d : prim) : prim :=
  match v with
  | PUndefined => d
  | _ => v
  end.

End Lodash.

(** ** Underscore *)

Module Underscore.

(** What a collection function is handed: an array, an object (its own
    enumerable properties, in enumeration order), or nothing
    ([undefined] or [null]). *)
Inductive collection (A : Type) : Type :=
| Nothing
| Array (elems : list A)
| Object (props : list (string * A)).
Arguments Nothing {A}.
Arguments Array {A} elems.
Arguments Object {A} props.

(** [_.toArray]: a copy of an array, the values of an object *)
Definition toArray {A} (obj : collection A) : list A :=
  match obj with
  | Nothing => []
  | Array elems => elems
  | Object props => map snd props
  end.

(** [_.last(array)]: [array[array.length - 1]] *)
Definition last_ {A} (array : list A) : option A := last array.

(** [_.contains(list, item)]: [indexOf] with [===] *)
Definition contains {A} `{EqDecision A} (l : list A) (item : A) : bool :=
  bool_decide (item ∈ l).

(** [_.intersection(array, others)]: the loop over [array] that pushes
    onto [result] each item not yet in it that [others] contains *)
Fixpoint intersection_loop {A} `{EqDecision A}
    (array others result : list A) : list A :=
  match array with
  | [] => result
  | item :: rest =>
      if contains result item then intersection_loop rest others result
      else if contains others item
           then intersection_loop rest others (result ++ [item])
           else intersection_loop rest others result
  end.

Definition intersection {A} `{EqDecision A} (array others : list A) : list A :=
  intersection_loop array others [].

(** *** [_.sortBy]

    [sortBy] pairs each value with its position and its criterion, sorts
    the pairs with [Array.prototype.sort] under [comparator], and plucks
    the values. *)
Section sortBy.
Context {A : Type}.

Record sortItem : Type := SortItem {
  value : A;
  index : nat;
  criteria : option Z;   (* a number, or [None] for [undefined] *)
}.

(** [a > b] and [a < b]: false as soon as one side is [undefined] *)
Definition gt (a b : option Z) : bool :=
  match a, b with
  | Some x, Some y => Z.ltb y x
  | _, _ => false
  end.

Definition lt (a b : option Z) : bool :=
  match a, b with
  | Some x, Some y => Z.ltb x y
  | _, _ => false
  end.

Definition is_undefined (a : option Z) : bool :=
  match a with
  | None => true
  | Some _ => false
  end.

Definition comparator (left right : sortItem) : Z :=
  let a := criteria left in
  let b := criteria right in
  let by_index := (Z.of_nat (index left) - Z.of_nat (index right))%Z in
  if negb (bool_decide (a = b)) then
    if gt a b || is_undefined a then 1%Z
    else if lt a b || is_undefined b then (-1)%Z
    else by_index
  else by_index.

(** [Array.prototype.sort(comparefn)], as insertion sort: [x] goes in
    front of the first element it does not compare greater than. *)
Fixpoint insert (comparefn : sortItem -> sortItem -> Z)
    (x : sortItem) (l : list sortItem) : list sortItem :=
  match l with
  | [] => [x]
  | y :: l' =>
      if Z.leb (comparefn x y) 0 then x :: y :: l'
      else y :: insert comparefn x l'
  end.

Fixpoint Array_sort (comparefn : sortItem -> sortItem -> Z)
    (l : list sortItem) : list sortItem :=
  match l with
  | [] => []
  | x :: l' => insert comparefn x (Array_sort comparefn l')
  end.

(** The [_.map] of [sortBy], with its counter [index++] *)
Fixpoint decorate (iteratee : A -> option Z) (i : nat) (obj : list A)
    : list sortItem :=
  match obj with
  | [] => []
  | v :: obj' =>
      {| value := v; index := i; criteria := iteratee v |}
        :: decorate iteratee (S i) obj'
  end.

Definition sortBy (iteratee : A -> option Z) (obj : list A) : list A :=
  map value (Array_sort comparator (decorate iteratee 0 obj)).

End sortBy.
Arguments sortItem A : clear implicits.

End Underscore.

(** ** The data model *)

Record Report : Type := {
  reportID : prim;
  chatType : prim;
  reportName : prim;
  policyID : option string;
  isOwnPolicyExpenseChat : prim;
  oldPolicyName : prim;
  statusNum : prim;
  stateNum : prim;
  lastVisitedTimestamp : option Z;   (* a time in milliseconds *)
  participants : option (list string);
}.

Record MessagePart : Type := {
  html : prim;
  text : prim;
}.

Record ReportAction : Type := {
  actorEmail : prim;
  reportActionID : prim;
  actionName : prim;
  message : option (list MessagePart);
}.

Record Timezone : Type := {
  selected : prim;
}.

Record PersonalDetails : Type := {
  timezone : option Timezone;
}.

Record Policy : Type := {
  name : prim;
}.

Record Session : Type := {
  email : prim;
}.

Record WelcomeMessage : Type := {
  phrase1 : string;
  phrase2 : string;
}.

(** The members of [CONST] the module reads.  [CONST.js] is not part of the
    sources at hand, so the values are left open. *)
Record Constants : Type := {
  REPORT_ACTIONS_TYPE_ADDCOMMENT : string;
  REPORT_CHAT_TYPE_POLICY_ADMINS : string;
  REPORT_CHAT_TYPE_POLICY_ANNOUNCE : string;
  REPORT_CHAT_TYPE_DOMAIN_ALL : string;
  REPORT_CHAT_TYPE_POLICY_ROOM : string;
  REPORT_CHAT_TYPE_POLICY_EXPENSE_CHAT : string;
  REPORT_STATUS_CLOSED : Z;
  REPORT_STATE_NUM_SUBMITTED : Z;
  REPORT_LAST_MESSAGE_TEXT_MAX_LENGTH : nat;
  EMAIL_CONCIERGE : string;
  EXPENSIFY_EMAILS : list string;
  DEFAULT_TIME_ZONE : Timezone;
}.

(** The chat types: an enumeration when the five strings differ. *)
Definition chat_types (CONST : Constants) : list string :=
  [ REPORT_CHAT_TYPE_POLICY_ADMINS CONST;
    REPORT_CHAT_TYPE_POLICY_ANNOUNCE CONST;
    REPORT_CHAT_TYPE_DOMAIN_ALL CONST;
    REPORT_CHAT_TYPE_POLICY_ROOM CONST;
    REPORT_CHAT_TYPE_POLICY_EXPENSE_CHAT CONST ].

(** Modelled from the spec: [ONYXKEYS.COLLECTION.POLICY], the prefix of the
    keys of the policy map ([ONYXKEYS.js] is not part of the sources at
    hand); the policy of identifier [id] is stored under [policy_<id>]. *)
Definition ONYXKEYS_COLLECTION_POLICY : string := "policy_".

(** [`${x}`] and [o[x]] for [x] a string or [undefined] *)
Definition toString (x : option string) : string :=
  match x with
  | Some s => s
  | None => "undefined"
  end.

(** [o && k(o)] for [o] an object or [undefined] *)
Definition and_obj {A} (o : option A) (k : A -> prim) : prim :=
  match o with
  | Some a => k a
  | None => PUndefined
  end.

(** [v.substring(n)]: a method of strings only *)
Definition call_substring (v : prim) (n : nat) : result prim :=
  match v with
  | PStr s => Ok (PStr (substring_from n s))
  | _ => Throw TypeError
  end.

(** ** The cached session e-mail *)

Module SessionCache.

(** [let sessionEmail;] *)
Definition initial : prim := PUndefined.

(** The callback of [Onyx.connect]: [val ? val.email : null] *)
Definition callback (val : option Session) : prim :=
  match val with
  | Some v => email v
  | None => PNull
  end.

End SessionCache.

(** ** The operations of [reportUtils.js] *)

Import Underscore Lodash.

(** An entry of a collection of reports: a report, or [None] for [null]
    and [undefined]. *)
Abbreviation entry := (option Report).

Section reportUtils.

Variable CONST : Constants.

(** [Localize.translateLocal(phrase, {workspaceName})] and
    [Str.removeSMSDomain(login)], from outside the module *)
Variable translateLocal : string -> option prim -> string.
Variable removeSMSDomain : string -> string.

Definition getReportParticipantsTitle (logins : list string) : string :=
  join ", " (map (fun login => removeSMSDomain login) logins).

Definition isReportMessageAttachment (reportMessageText : prim) : bool :=
  strict_eq reportMessageText (PStr "[Attachment]").

(** The callback [report => report && report.reportID] *)
Definition has_reportID (report : entry) : prim :=
  and_obj report (fun r => reportID r).

(** [.filter(report => report && report.reportID)]: what is kept is a
    report, and the result is typed as a list of reports. *)
Fixpoint filter_has_reportID (reports : list entry) : list Report :=
  match reports with
  | [] => []
  | report :: rest =>
      match report with
      | Some r =>
          if truthy (has_reportID report)
          then r :: filter_has_reportID rest
          else filter_has_reportID rest
      | None => filter_has_reportID rest
      end
  end.

Definition sortReportsByLastVisited (reports : collection entry) : list Report :=
  sortBy lastVisitedTimestamp (filter_has_reportID (toArray reports)).

Definition canEditReportAction (sessionEmail : prim) (reportAction : ReportAction) : prim :=
  PBool (strict_eq (actorEmail reportAction) sessionEmail)
  &&& reportActionID reportAction
  &&& PBool (strict_eq (actionName reportAction)
               (PStr (REPORT_ACTIONS_TYPE_ADDCOMMENT CONST)))
  &&& PBool (negb (isReportMessageAttachment
               (or_default
                  (match message reportAction with
                   | Some (part :: _) => text part
                   | _ => PUndefined
                   end)
                  (PStr "")))).

Definition canDeleteReportAction (sessionEmail : prim) (reportAction : ReportAction) : prim :=
  PBool (strict_eq (actorEmail reportAction) sessionEmail)
  &&& reportActionID reportAction
  &&& PBool (strict_eq (actionName reportAction)
               (PStr (REPORT_ACTIONS_TYPE_ADDCOMMENT CONST))).

Definition isDefaultRoom (report : Report) : bool :=
  contains
    [ PStr (REPORT_CHAT_TYPE_POLICY_ADMINS CONST);
      PStr (REPORT_CHAT_TYPE_POLICY_ANNOUNCE CONST);
      PStr (REPORT_CHAT_TYPE_DOMAIN_ALL CONST) ]
    (or_default (chatType report) (PStr "")).

Definition isAdminRoom (report : Report) : bool :=
  strict_eq (or_default (chatType report) (PStr ""))
    (PStr (REPORT_CHAT_TYPE_POLICY_ADMINS CONST)).

Definition isAnnounceRoom (report : Report) : bool :=
  strict_eq (or_default (chatType report) (PStr ""))
    (PStr (REPORT_CHAT_TYPE_POLICY_ANNOUNCE CONST)).

Definition isUserCreatedPolicyRoom (report : Report) : bool :=
  strict_eq (or_default (chatType report) (PStr ""))
    (PStr (REPORT_CHAT_TYPE_POLICY_ROOM CONST)).

Definition isPolicyExpenseChat (report : Report) : bool :=
  strict_eq (or_default (chatType report) (PStr ""))
    (PStr (REPORT_CHAT_TYPE_POLICY_EXPENSE_CHAT CONST)).

Definition isChatRoom (report : Report) : bool :=
  isUserCreatedPolicyRoom report || isDefaultRoom report.

Definition findLastAccessedReport (reports : collection entry)
    (ignoreDefaultRooms : prim) : option Report :=
  let sortedReports := sortReportsByLastVisited reports in
  let sortedReports :=
    if truthy ignoreDefaultRooms
    then List.filter (fun report => negb (isDefaultRoom report)) sortedReports
    else sortedReports in
  last_ sortedReports.

Definition isArchivedRoom (report : Report) : bool :=
  if negb (isChatRoom report) && negb (isPolicyExpenseChat report) then false
  else strict_eq (statusNum report) (PNum (REPORT_STATUS_CLOSED CONST))
       && strict_eq (stateNum report) (PNum (REPORT_STATE_NUM_SUBMITTED CONST)).

(** [lodashGet(policiesMap, [`policy_${policyID}`, 'name'], d)] *)
Definition policy_name (policiesMap : gmap string Policy)
    (policyID : option string) (d : prim) : prim :=
  or_default
    (match policiesMap !! (String.append ONYXKEYS_COLLECTION_POLICY (toString policyID)) with
     | Some policy => name policy
     | None => PUndefined
     end)
    d.

Definition getChatRoomSubtitle (report : Report)
    (policiesMap : gmap string Policy) : result prim :=
  if negb (isDefaultRoom report) && negb (isUserCreatedPolicyRoom report)
     && negb (isPolicyExpenseChat report)
  then Ok (PStr "")
  else if strict_eq (chatType report) (PStr (REPORT_CHAT_TYPE_DOMAIN_ALL CONST))
  then call_substring (reportName report) 1
  else if isArchivedRoom report
  then Ok (oldPolicyName report)
  else if isPolicyExpenseChat report && truthy (isOwnPolicyExpenseChat report)
  then Ok (PStr (translateLocal "workspace.common.workspace" None))
  else Ok (policy_name policiesMap (policyID report)
             (PStr (translateLocal "workspace.common.unavailable" None))).

Definition getRoomWelcomeMessage (report : Report)
    (policiesMap : gmap string Policy) : WelcomeMessage :=
  let workspaceName :=
    policy_name policiesMap (policyID report)
      (PStr (translateLocal "workspace.common.unavailable" None)) in
  if isAdminRoom report then
    {| phrase1 := translateLocal "reportActionsView.beginningOfChatHistoryAdminRoomPartOne" (Some workspaceName);
       phrase2 := translateLocal "reportActionsView.beginningOfChatHistoryAdminRoomPartTwo" None |}
  else if isAnnounceRoom report then
    {| phrase1 := translateLocal "reportActionsView.beginningOfChatHistoryAnnounceRoomPartOne" (Some workspaceName);
       phrase2 := translateLocal "reportActionsView.beginningOfChatHistoryAnnounceRoomPartTwo" (Some workspaceName) |}
  else
    {| phrase1 := translateLocal "reportActionsView.beginningOfChatHistoryUserRoomPartOne" None;
       phrase2 := translateLocal "reportActionsView.beginningOfChatHistoryUserRoomPartTwo" None |}.

Definition isConciergeChatReport (report : Report) : result bool :=
  if Nat.eqb (length (default [] (participants report))) 1 then
    (* [report.participants[0]] *)
    participants ← member_of (participants report);
    Ok (bool_decide (participants !! 0%nat = Some (EMAIL_CONCIERGE CONST)))
  else Ok false.

Definition chatIncludesConcierge (report : Report) : prim :=
  and_obj (participants report)
    (fun participants => PBool (contains participants (EMAIL_CONCIERGE CONST))).

Definition hasExpensifyEmails (emails : list string) : bool :=
  Nat.ltb 0 (length (intersection emails (EXPENSIFY_EMAILS CONST))).

Definition canShowReportRecipientLocalTime
    (personalDetails : gmap string PersonalDetails) (report : Report) : prim :=
  let reportParticipants := default [] (participants report) in
  let hasMultipleParticipants := Nat.ltb 1 (length reportParticipants) in
  let reportRecipient := personalDetails !! toString (reportParticipants !! 0%nat) in
  let reportRecipientTimezone :=
    default (DEFAULT_TIME_ZONE CONST) (reportRecipient ≫= timezone) in
  PBool (negb (hasExpensifyEmails reportParticipants))
  &&& PBool (negb hasMultipleParticipants)
  &&& and_obj reportRecipient (fun _ =>
        and_obj (Some reportRecipientTimezone) (fun tz => selected tz)).

Definition isDeletedAction (action : ReportAction) : result bool :=
  (* [action.message.length] *)
  message ← member_of (message action);
  if Nat.eqb (length message) 0 then Ok true
  else
    (* [action.message[0].html] *)
    part ← member_of (message !! 0%nat);
    Ok (strict_eq (html part) (PStr "")).

Definition formatReportLastMessageText (lastMessageText : string) : string :=
  substring_to (REPORT_LAST_MESSAGE_TEXT_MAX_LENGTH CONST) lastMessageText.

End reportUtils.

(** ** What the claims speak of *)

(** The text of the first message part of an action, the empty string when
    there is none. *)
Definition first_message_text (reportAction : ReportAction) : prim :=
  match message reportAction with
  | Some (part :: _) =>
      match text part with
      | PUndefined => PStr ""
      | t => t
      end
  | _ => PStr ""
  end.

(** The order of the timestamps: numbers by [≤], and the absent timestamp
    after every other. *)
Definition timestamp_le (a b : option Z) : Prop :=
  match a, b with
  | Some x, Some y => (x <= y)%Z
  | _, None => True
  | None, Some _ => False
  end.

Definition visited_le (r1 r2 : Report) : Prop :=
  timestamp_le (lastVisitedTimestamp r1) (lastVisitedTimestamp r2).

(** The entries of a collection that are reports with a truthy [reportID] *)
Definition is_valid (report : entry) : bool :=
  match report with
  | Some r => truthy (reportID r)
  | None => false
  end.

(** The entries visited at [t] *)
Definition visited_at (t : option Z) (r : Report) : bool :=
  bool_decide (lastVisitedTimestamp r = t).

Definition timestamp_lt (a b : option Z) : Prop :=
  match a, b with
  | Some x, Some y => (x < y)%Z
  | Some _, None => True
  | None, _ => False
  end.

(** [left] may stand in front of [right] after [Array.prototype.sort]:
    the comparator does not say that [left] is the greater. *)
Definition comparator_le {A} (left right : sortItem A) : Prop :=
  (comparator left right <= 0)%Z.

(** The order the comparator of [sortBy] encodes: by criterion, then by
    position. *)
Definition criteria_index_le {A} (left right : sortItem A) : Prop :=
  timestamp_lt (criteria left) (criteria right)
  \/ (criteria left = criteria right /\ (index left <= index right)%nat).

(** The condition under which the local time of the recipient is shown,
    in the words of the specification: one participant, with a profile that
    has a timezone whose [selected] holds, and no Expensify e-mail among
    the participants. *)
Definition local_time_shown_as_specified (CONST : Constants)
    (personalDetails : gmap string PersonalDetails) (report : Report) : Prop :=
  exists participant profile tz,
    participants report = Some [participant]
    /\ personalDetails !! participant = Some profile
    /\ timezone profile = Some tz
    /\ truthy (selected tz) = true
    /\ participant ∉ EXPENSIFY_EMAILS CONST.

(** The entries [sortReportsByLastVisited] is to keep *)
Definition valid_entries (reports : collection entry) : list entry :=
  List.filter is_valid (toArray reports).

(** The sorted reports [findLastAccessedReport] chooses from: all of them,
    or those that are not default rooms when the flag is set. *)
Definition reports_left (CONST : Constants) (reports : collection entry)
    (ignoreDefaultRooms : prim) : list Report :=
  List.filter
    (fun r => negb (truthy ignoreDefaultRooms && isDefaultRoom CONST r))
    (sortReportsByLastVisited reports).

Definition is_domain_all (CONST : Constants) (report : Report) : Prop :=
  chatType report = PStr (REPORT_CHAT_TYPE_DOMAIN_ALL CONST).

(** The reports whose subtitle is the name of their policy: the rooms and
    policy-expense chats that are left when the domain-all rooms, the
    archived rooms and the caller's own policy-expense chats are set
    aside. *)
Definition subtitle_names_policy (CONST : Constants) (report : Report) : Prop :=
  (isDefaultRoom CONST report = true
   \/ isUserCreatedPolicyRoom CONST report = true
   \/ isPolicyExpenseChat CONST report = true)
  /\ ~ is_domain_all CONST report
  /\ isArchivedRoom CONST report = false
  /\ ~ (isPolicyExpenseChat CONST report = true
        /\ truthy (isOwnPolicyExpenseChat report) = true).

(** ** Sample data *)

Module Sample.

Definition CONST : Constants := {|
  REPORT_ACTIONS_TYPE_ADDCOMMENT := "ADDCOMMENT";
  REPORT_CHAT_TYPE_POLICY_ADMINS := "policyAdmins";
  REPORT_CHAT_TYPE_POLICY_ANNOUNCE := "policyAnnounce";
  REPORT_CHAT_TYPE_DOMAIN_ALL := "domainAll";
  REPORT_CHAT_TYPE_POLICY_ROOM := "policyRoom";
  REPORT_CHAT_TYPE_POLICY_EXPENSE_CHAT := "policyExpenseChat";
  REPORT_STATUS_CLOSED := 2;
  REPORT_STATE_NUM_SUBMITTED := 2;
  REPORT_LAST_MESSAGE_TEXT_MAX_LENGTH := 200;
  EMAIL_CONCIERGE := "concierge@expensify.com";
  EXPENSIFY_EMAILS := ["concierge@expensify.com"; "chronos@expensify.com"];
  DEFAULT_TIME_ZONE := {| selected := PStr "America/Los_Angeles" |};
|}.

Definition translateLocal (phrase : string) (workspaceName : option prim) : string :=
  phrase.

(** A report with nothing but a [reportID] and a [chatType] *)
Definition report (id : Z) (kind : prim) (visited : option Z) : Report := {|
  reportID := PNum id;
  chatType := kind;
  reportName := PUndefined;
  policyID := None;
  isOwnPolicyExpenseChat := PUndefined;
  oldPolicyName := PUndefined;
  statusNum := PUndefined;
  stateNum := PUndefined;
  lastVisitedTimestamp := visited;
  participants := None;
|}.

Definition with_participants (r : Report) (ps : list string) : Report := {|
  reportID := reportID r;
  chatType := chatType r;
  reportName := reportName r;
  policyID := policyID r;
  isOwnPolicyExpenseChat := isOwnPolicyExpenseChat r;
  oldPolicyName := oldPolicyName r;
  statusNum := statusNum r;
  stateNum := stateNum r;
  lastVisitedTimestamp := lastVisitedTimestamp r;
  participants := Some ps;
|}.

Definition room (kind name old : string) (status state : Z) (own : bool)
    (policy : string) : Report := {|
  reportID := PNum 7;
  chatType := PStr kind;
  reportName := PStr name;
  policyID := Some policy;
  isOwnPolicyExpenseChat := PBool own;
  oldPolicyName := PStr old;
  statusNum := PNum status;
  stateNum := PNum state;
  lastVisitedTimestamp := Some 1;
  participants := None;
|}.

Definition direct_chat : Report :=
  with_participants (report 1 PUndefined None) ["a@example.com"].

Definition profile_without_timezone : gmap string PersonalDetails :=
  {[ "a@example.com" := {| timezone := None |} ]}.

Definition comment (actor : string) (id : prim) (body : option (list MessagePart))
    : ReportAction := {|
  actorEmail := PStr actor;
  reportActionID := id;
  actionName := PStr "ADDCOMMENT";
  message := body;
|}.

End Sample.

(** ** Room kinds *)

Section room_kinds.

Variable CONST : Constants.

Lemma chat_types_NoDup_ne :
  NoDup (chat_types CONST) ->
  let a := REPORT_CHAT_TYPE_POLICY_ADMINS CONST in
  let n := REPORT_CHAT_TYPE_POLICY_ANNOUNCE CONST in
  let d := REPORT_CHAT_TYPE_DOMAIN_ALL CONST in
  let r := REPORT_CHAT_TYPE_POLICY_ROOM CONST in
  let e := REPORT_CHAT_TYPE_POLICY_EXPENSE_CHAT CONST in
  a ≠ n /\ a ≠ d /\ a ≠ r /\ a ≠ e /\ n ≠ d /\ n ≠ r /\ n ≠ e
  /\ d ≠ r /\ d ≠ e /\ r ≠ e.
Proof.
  unfold chat_types. intros Hnd.
  repeat (apply NoDup_cons in Hnd as [? Hnd]).
  set_solver.
Qed.

Lemma isDefaultRoom_true (report : Report) :
  isDefaultRoom CONST report = true <->
  isAdminRoom CONST report = true
  \/ isAnnounceRoom CONST report = true
  \/ strict_eq (or_default (chatType report) (PStr ""))
       (PStr (REPORT_CHAT_TYPE_DOMAIN_ALL CONST)) = true.
Proof.
  unfold isDefaultRoom, isAdminRoom, isAnnounceRoom, contains, strict_eq.
  rewrite !bool_decide_eq_true. set_solver.
Qed.

Lemma no_chatType_no_room (report : Report) :
  "" ∉ chat_types CONST ->
  chatType report = PUndefined ->
  isDefaultRoom CONST report = false
  /\ isUserCreatedPolicyRoom CONST report = false
  /\ isPolicyExpenseChat CONST report = false.
Proof.
  unfold chat_types. intros Hne Hno.
  unfold isDefaultRoom, isUserCreatedPolicyRoom, isPolicyExpenseChat,
    contains, strict_eq.
  rewrite Hno. simpl.
  rewrite !bool_decide_eq_false.
  repeat split; intros Hin; apply Hne; set_solver.
Qed.

End room_kinds.

(** C10. The room kinds exclude one another: when the five chat types are
    different constants, at most one of [isAdminRoom], [isAnnounceRoom],
    [isUserCreatedPolicyRoom] and [isPolicyExpenseChat] holds of a report,
    and a default room is neither a user-created policy room nor a
    policy-expense chat. *)
Theorem room_kinds_exclusive (CONST : Constants) (report : Report) :
  NoDup (chat_types CONST) ->
  (length (List.filter id
     [ isAdminRoom CONST report; isAnnounceRoom CONST report;
       isUserCreatedPolicyRoom CONST report;
       isPolicyExpenseChat CONST report ]) <= 1)%nat
  /\ (isDefaultRoom CONST report = true ->
      isUserCreatedPolicyRoom CONST report = false
      /\ isPolicyExpenseChat CONST report = false).
Proof.
  intros Hnd.
  destruct (chat_types_NoDup_ne CONST Hnd)
    as (? & ? & ? & ? & ? & ? & ? & ? & ? & ?).
  split.
  - unfold isAdminRoom, isAnnounceRoom, isUserCreatedPolicyRoom,
      isPolicyExpenseChat, strict_eq.
    repeat case_bool_decide; simpl; try lia; congruence.
  - rewrite isDefaultRoom_true.
    unfold isAdminRoom, isAnnounceRoom, isUserCreatedPolicyRoom,
      isPolicyExpenseChat, strict_eq.
    rewrite !bool_decide_eq_true, !bool_decide_eq_false.
    intros [Hc | [Hc | Hc]]; rewrite Hc; split; congruence.
Qed.

Lemma room_kinds_exclusive_witness :
  NoDup (chat_types Sample.CONST)
  /\ (length (List.filter id
       [ isAdminRoom Sample.CONST (Sample.report 1 (PStr "policyAdmins") None);
         isAnnounceRoom Sample.CONST (Sample.report 1 (PStr "policyAdmins") None);
         isUserCreatedPolicyRoom Sample.CONST (Sample.report 1 (PStr "policyAdmins") None);
         isPolicyExpenseChat Sample.CONST (Sample.report 1 (PStr "policyAdmins") None) ])
      <= 1)%nat.
Proof.
  assert (Hnd : NoDup (chat_types Sample.CONST)).
  { unfold chat_types; simpl.
    repeat (apply NoDup_cons; split; [set_solver |]). apply NoDup_nil_2. }
  split; [exact Hnd |].
  exact (proj1 (room_kinds_exclusive Sample.CONST
                  (Sample.report 1 (PStr "policyAdmins") None) Hnd)).
Defined.

(** C6. [isArchivedRoom] is false of a report that is neither a chat room
    nor a policy-expense chat; of one that is, it is true exactly when
    [statusNum] is [CLOSED] and [stateNum] is [SUBMITTED]; and it is false
    of a report without [chatType], whatever its status and state (no chat
    type being the empty string). *)
Theorem isArchivedRoom_spec (CONST : Constants) (report : Report) :
  (isChatRoom CONST report = false ->
   isPolicyExpenseChat CONST report = false ->
   isArchivedRoom CONST report = false)
  /\ (isChatRoom CONST report = true \/ isPolicyExpenseChat CONST report = true ->
      (isArchivedRoom CONST report = true <->
       statusNum report = PNum (REPORT_STATUS_CLOSED CONST)
       /\ stateNum report = PNum (REPORT_STATE_NUM_SUBMITTED CONST)))
  /\ ("" ∉ chat_types CONST -> chatType report = PUndefined ->
      isArchivedRoom CONST report = false).
Proof.
  unfold isArchivedRoom. split; [| split].
  - intros -> ->. reflexivity.
  - intros Hroom.
    assert (negb (isChatRoom CONST report)
            && negb (isPolicyExpenseChat CONST report) = false) as ->.
    { destruct Hroom as [-> | ->]; simpl; rewrite ?andb_false_r; reflexivity. }
    unfold strict_eq. rewrite andb_true_iff, !bool_decide_eq_true.
    reflexivity.
  - intros Hne Hno.
    destruct (no_chatType_no_room CONST report Hne Hno) as (Hd & Hu & He).
    unfold isChatRoom. rewrite Hd, Hu, He. reflexivity.
Qed.

Lemma isArchivedRoom_spec_witness :
  isArchivedRoom Sample.CONST
    (Sample.room "policyRoom" "#room" "Old" 2 2 false "P1") = true
  /\ isArchivedRoom Sample.CONST
       (Sample.room "policyRoom" "#room" "Old" 2 1 false "P1") = false
  /\ isArchivedRoom Sample.CONST
       {| reportID := PNum 1; chatType := PUndefined; reportName := PUndefined;
          policyID := None; isOwnPolicyExpenseChat := PUndefined;
          oldPolicyName := PUndefined; statusNum := PNum 2; stateNum := PNum 2;
          lastVisitedTimestamp := Some 3; participants := None |} = false.
Proof.
  split; [| split].
  - apply (proj1 (proj2 (isArchivedRoom_spec Sample.CONST
             (Sample.room "policyRoom" "#room" "Old" 2 2 false "P1")))).
    + left. reflexivity.
    + split; reflexivity.
  - apply not_true_is_false.
    rewrite (proj1 (proj2 (isArchivedRoom_spec Sample.CONST
               (Sample.room "policyRoom" "#room" "Old" 2 1 false "P1"))));
      [| left; reflexivity].
    intros [_ ?]. discriminate.
  - apply (proj2 (proj2 (isArchivedRoom_spec Sample.CONST _))).
    + unfold chat_types; simpl. rewrite !not_elem_of_cons.
      repeat split; try discriminate. apply not_elem_of_nil.
    + reflexivity.
Defined.

Lemma isConciergeChatReport_value (CONST : Constants) (report : Report) :
  isConciergeChatReport CONST report
  = Ok (bool_decide (default [] (participants report) = [EMAIL_CONCIERGE CONST])).
Proof.
  unfold isConciergeChatReport.
  destruct (participants report) as [[|p [|q ps]]|]; simpl; try reflexivity.
  - f_equal. apply bool_decide_ext. split; congruence.
  - f_equal. symmetry. apply bool_decide_eq_false. discriminate.
Qed.

(** C9. [isConciergeChatReport] returns, and returns true exactly when the
    participants are one entry, the Concierge e-mail; a report without
    [participants] counts as one with none.  It is false with no
    participant, with two or more, and with a single other participant. *)
Theorem isConciergeChatReport_spec (CONST : Constants) (report : Report) :
  isConciergeChatReport CONST report
  = Ok (bool_decide (default [] (participants report) = [EMAIL_CONCIERGE CONST]))
  /\ (isConciergeChatReport CONST report = Ok true <->
      participants report = Some [EMAIL_CONCIERGE CONST])
  /\ (length (default [] (participants report)) ≠ 1%nat ->
      isConciergeChatReport CONST report = Ok false)
  /\ (forall p, participants report = Some [p] -> p ≠ EMAIL_CONCIERGE CONST ->
      isConciergeChatReport CONST report = Ok false).
Proof.
  pose proof (isConciergeChatReport_value CONST report) as Heq.
  repeat split.
  - exact Heq.
  - rewrite Heq. intros [= Hb]. apply bool_decide_eq_true in Hb.
    destruct (participants report); simpl in Hb; congruence.
  - intros Hp. rewrite Heq, Hp. simpl. f_equal. apply bool_decide_eq_true.
    reflexivity.
  - intros Hlen. rewrite Heq. f_equal. apply bool_decide_eq_false.
    intros Hp. rewrite Hp in Hlen. simpl in Hlen. congruence.
  - intros p Hp Hne. rewrite Heq, Hp. simpl. f_equal.
    apply bool_decide_eq_false. congruence.
Qed.

Lemma isConciergeChatReport_spec_witness :
  isConciergeChatReport Sample.CONST
    (Sample.report 1 PUndefined None) = Ok false
  /\ isConciergeChatReport Sample.CONST
       (Sample.with_participants (Sample.report 1 PUndefined None)
          ["someone@example.com"]) = Ok false.
Proof.
  split.
  - apply (proj1 (proj2 (proj2 (isConciergeChatReport_spec Sample.CONST
             (Sample.report 1 PUndefined None))))).
    simpl. lia.
  - apply (proj2 (proj2 (proj2 (isConciergeChatReport_spec Sample.CONST
             (Sample.with_participants (Sample.report 1 PUndefined None)
                ["someone@example.com"])))) "someone@example.com").
    + reflexivity.
    + discriminate.
Defined.

(** ** Editing and deleting a report action *)

Lemma truthy_and (a b : prim) : truthy (a &&& b) = truthy a && truthy b.
Proof. unfold and_. destruct (truthy a) eqn:Ha; simpl; auto. Qed.

Lemma lodashGet_message_text (reportAction : ReportAction) :
  or_default
    (match message reportAction with
     | Some (part :: _) => text part
     | _ => PUndefined
     end) (PStr "")
  = first_message_text reportAction.
Proof.
  unfold first_message_text.
  destruct (message reportAction) as [[|part ?]|]; try reflexivity.
  destruct (text part); reflexivity.
Qed.

Lemma canEdit_canDelete (CONST : Constants) (sessionEmail : prim)
    (reportAction : ReportAction) :
  canEditReportAction CONST sessionEmail reportAction
  = canDeleteReportAction CONST sessionEmail reportAction
    &&& PBool (negb (isReportMessageAttachment (first_message_text reportAction))).
Proof.
  unfold canEditReportAction, canDeleteReportAction.
  rewrite lodashGet_message_text. reflexivity.
Qed.

Lemma canDeleteReportAction_truthy (CONST : Constants) (sessionEmail : prim)
    (reportAction : ReportAction) :
  truthy (canDeleteReportAction CONST sessionEmail reportAction) = true <->
  actorEmail reportAction = sessionEmail
  /\ truthy (reportActionID reportAction) = true
  /\ actionName reportAction = PStr (REPORT_ACTIONS_TYPE_ADDCOMMENT CONST).
Proof.
  unfold canDeleteReportAction. rewrite !truthy_and, !andb_true_iff. simpl.
  unfold strict_eq. rewrite !bool_decide_eq_true. tauto.
Qed.

(** C2. [canEditReportAction] is truthy exactly when the actor is the
    cached session e-mail, the action has a truthy [reportActionID], it is
    an [ADDCOMMENT], and the text of its first message part (the empty
    string when there is none) is not ["[Attachment]"].  Without a
    [reportActionID] it is falsy. *)
Theorem canEditReportAction_spec (CONST : Constants) (sessionEmail : prim)
    (reportAction : ReportAction) :
  (truthy (canEditReportAction CONST sessionEmail reportAction) = true <->
   actorEmail reportAction = sessionEmail
   /\ truthy (reportActionID reportAction) = true
   /\ actionName reportAction = PStr (REPORT_ACTIONS_TYPE_ADDCOMMENT CONST)
   /\ first_message_text reportAction ≠ PStr "[Attachment]")
  /\ (reportActionID reportAction = PUndefined ->
      truthy (canEditReportAction CONST sessionEmail reportAction) = false).
Proof.
  rewrite canEdit_canDelete, truthy_and. split.
  - rewrite andb_true_iff, canDeleteReportAction_truthy. simpl.
    unfold isReportMessageAttachment, strict_eq.
    rewrite negb_true_iff, bool_decide_eq_false. tauto.
  - intros Hid. apply andb_false_iff. left.
    apply not_true_is_false. rewrite canDeleteReportAction_truthy.
    rewrite Hid. simpl. intros (_ & ? & _). discriminate.
Qed.

Lemma canEditReportAction_spec_witness :
  truthy (canEditReportAction Sample.CONST (PStr "me@example.com")
            (Sample.comment "me@example.com" PUndefined
               (Some [{| html := PStr "hi"; text := PStr "hi" |}]))) = false
  /\ truthy (canEditReportAction Sample.CONST (PStr "me@example.com")
            (Sample.comment "me@example.com" (PStr "42") None)) = true.
Proof.
  split.
  - apply (proj2 (canEditReportAction_spec Sample.CONST (PStr "me@example.com")
             (Sample.comment "me@example.com" PUndefined
                (Some [{| html := PStr "hi"; text := PStr "hi" |}])))).
    reflexivity.
  - apply (proj1 (canEditReportAction_spec Sample.CONST (PStr "me@example.com")
             (Sample.comment "me@example.com" (PStr "42") None))).
    repeat split; discriminate.
Defined.

(** The session e-mail is what the callback of the subscription stored
    last: nothing can be edited once the session is gone, and before the
    first session an action without actor compares equal to the unset
    cache. *)
Example canEditReportAction_session :
  truthy (canEditReportAction Sample.CONST
            (SessionCache.callback (Some {| email := PStr "me@example.com" |}))
            (Sample.comment "me@example.com" (PStr "42") None)) = true
  /\ truthy (canEditReportAction Sample.CONST (SessionCache.callback None)
               (Sample.comment "me@example.com" (PStr "42") None)) = false
  /\ truthy (canEditReportAction Sample.CONST SessionCache.initial
               {| actorEmail := PUndefined; reportActionID := PStr "42";
                  actionName := PStr "ADDCOMMENT"; message := None |}) = true.
Proof. repeat split. Qed.

(** C3. [canDeleteReportAction] is [canEditReportAction] without the
    attachment check: it is truthy exactly when the actor is the cached
    session e-mail, the action has a truthy [reportActionID] and it is an
    [ADDCOMMENT], the three conditions of [canEditReportAction] that are
    not about the attachment, and [canEditReportAction] is truthy exactly
    when [canDeleteReportAction] is and the first message part does not
    read ["[Attachment]"].  So what can be edited can be deleted, and an
    [ADDCOMMENT] of the session user that has a [reportActionID] and whose
    first message part reads ["[Attachment]"] can be deleted and cannot be
    edited. *)
Theorem canDelete_omits_attachment_check (CONST : Constants)
    (sessionEmail : prim) (reportAction : ReportAction) :
  (truthy (canEditReportAction CONST sessionEmail reportAction) = true ->
   truthy (canDeleteReportAction CONST sessionEmail reportAction) = true)
  /\ (actorEmail reportAction = sessionEmail ->
      truthy (reportActionID reportAction) = true ->
      actionName reportAction = PStr (REPORT_ACTIONS_TYPE_ADDCOMMENT CONST) ->
      first_message_text reportAction = PStr "[Attachment]" ->
      truthy (canDeleteReportAction CONST sessionEmail reportAction) = true
      /\ truthy (canEditReportAction CONST sessionEmail reportAction) = false)
  /\ (truthy (canEditReportAction CONST sessionEmail reportAction)
      = truthy (canDeleteReportAction CONST sessionEmail reportAction)
        && negb (isReportMessageAttachment (first_message_text reportAction)))
  /\ (truthy (canDeleteReportAction CONST sessionEmail reportAction) = true <->
      actorEmail reportAction = sessionEmail
      /\ truthy (reportActionID reportAction) = true
      /\ actionName reportAction = PStr (REPORT_ACTIONS_TYPE_ADDCOMMENT CONST))
  /\ (truthy (canEditReportAction CONST sessionEmail reportAction) = true <->
      truthy (canDeleteReportAction CONST sessionEmail reportAction) = true
      /\ first_message_text reportAction ≠ PStr "[Attachment]").
Proof.
  rewrite canEdit_canDelete, truthy_and. split; [| split; [| split; [| split]]].
  - intros [H _]%andb_true_iff. exact H.
  - intros Hactor Hid Hname Htext.
    assert (Hdel : truthy (canDeleteReportAction CONST sessionEmail reportAction) = true).
    { apply canDeleteReportAction_truthy. auto. }
    split; [exact Hdel |].
    rewrite Hdel, Htext. reflexivity.
  - reflexivity.
  - apply canDeleteReportAction_truthy.
  - rewrite andb_true_iff. simpl.
    unfold isReportMessageAttachment, strict_eq.
    rewrite negb_true_iff, bool_decide_eq_false. reflexivity.
Qed.

Lemma canDelete_omits_attachment_check_witness :
  truthy (canDeleteReportAction Sample.CONST (PStr "me@example.com")
            (Sample.comment "me@example.com" (PStr "42")
               (Some [{| html := PStr "<img>"; text := PStr "[Attachment]" |}]))) = true
  /\ truthy (canEditReportAction Sample.CONST (PStr "me@example.com")
            (Sample.comment "me@example.com" (PStr "42")
               (Some [{| html := PStr "<img>"; text := PStr "[Attachment]" |}]))) = false.
Proof.
  apply (proj1 (proj2 (canDelete_omits_attachment_check Sample.CONST
           (PStr "me@example.com")
           (Sample.comment "me@example.com" (PStr "42")
              (Some [{| html := PStr "<img>"; text := PStr "[Attachment]" |}])))));
    reflexivity.
Defined.

(** ** [_.sortBy] sorts, keeps every value, and is stable *)

Section sortBy_facts.

Context {A : Type}.
Implicit Types (x y z : sortItem A) (l : list (sortItem A)).

Lemma comparator_le_iff x y : comparator_le x y <-> criteria_index_le x y.
Proof.
  unfold comparator_le, criteria_index_le, comparator, gt, lt, is_undefined,
    timestamp_lt.
  destruct (criteria x) as [a|], (criteria y) as [b|];
    case_bool_decide as Hab; simplify_eq; simpl.
  - split; [intros; right; split; [reflexivity | lia] | intros [? | [_ ?]]; lia].
  - rewrite !orb_false_r.
    destruct (Z.ltb_spec b a); [| destruct (Z.ltb_spec a b)].
    + split; [lia | intros [? | [? ?]]; [lia | congruence]].
    + split; [intros; left; assumption | lia].
    + exfalso. apply Hab. f_equal. lia.
  - split; [intros; left; exact I | lia].
  - split; [lia | intros [[] | [? _]]; discriminate].
  - split; [intros; right; split; [reflexivity | lia] | intros [[] | [_ ?]]; lia].
Qed.

#[global] Instance comparator_le_trans : Transitive (@comparator_le A).
Proof.
  intros x y z. rewrite !comparator_le_iff.
  unfold criteria_index_le, timestamp_lt.
  destruct (criteria x) as [a|], (criteria y) as [b|], (criteria z) as [c|];
    intros [? | [? ?]] [? | [? ?]]; simplify_eq;
    try tauto; try (left; lia); try (right; split; [reflexivity | lia]).
Qed.

Lemma comparator_le_total x y : comparator_le x y \/ comparator_le y x.
Proof.
  rewrite !comparator_le_iff. unfold criteria_index_le, timestamp_lt.
  destruct (criteria x) as [a|], (criteria y) as [b|]; try tauto.
  - destruct (Z.lt_trichotomy a b) as [? | [-> | ?]]; try tauto.
    destruct (Nat.le_ge_cases (index x) (index y)); tauto.
  - destruct (Nat.le_ge_cases (index x) (index y)); tauto.
Qed.

Lemma comparator_le_antisym x y :
  comparator_le x y -> comparator_le y x ->
  criteria x = criteria y /\ index x = index y.
Proof.
  rewrite !comparator_le_iff. unfold criteria_index_le, timestamp_lt.
  destruct (criteria x) as [a|], (criteria y) as [b|];
    intros [? | [? ?]] [? | [? ?]]; simplify_eq; try tauto; try lia;
    (split; [reflexivity | lia]).
Qed.

Lemma comparator_le_timestamp x y :
  comparator_le x y -> timestamp_le (criteria x) (criteria y).
Proof.
  rewrite comparator_le_iff. unfold criteria_index_le, timestamp_lt, timestamp_le.
  destruct (criteria x) as [a|], (criteria y) as [b|];
    intros [? | [? ?]]; simplify_eq; try tauto; lia.
Qed.

End sortBy_facts.

Section Array_sort_facts.

Context {A : Type}.
Implicit Types (x y : sortItem A) (l : list (sortItem A)).

Lemma insert_Permutation x l : insert comparator x l ≡ₚ x :: l.
Proof.
  induction l as [|y l IH]; simpl; [reflexivity |].
  destruct (Z.leb (comparator x y) 0); [reflexivity |].
  rewrite IH. apply Permutation_swap.
Qed.

Lemma Array_sort_Permutation l : Array_sort comparator l ≡ₚ l.
Proof.
  induction l as [|x l IH]; simpl; [reflexivity |].
  rewrite insert_Permutation, IH. reflexivity.
Qed.

Lemma insert_HdRel x y l :
  comparator_le y x -> HdRel comparator_le y l ->
  HdRel comparator_le y (insert comparator x l).
Proof.
  intros Hyx Hhd. destruct Hhd as [|z l Hyz]; simpl.
  - constructor. exact Hyx.
  - destruct (Z.leb (comparator x z) 0); constructor; assumption.
Qed.

Lemma insert_Sorted x l :
  Sorted comparator_le l -> Sorted comparator_le (insert comparator x l).
Proof.
  induction 1 as [|y l Hl IH Hhd]; simpl.
  - repeat constructor.
  - destruct (Z.leb_spec (comparator x y) 0) as [Hle | Hgt].
    + repeat constructor; assumption.
    + constructor; [exact IH |].
      apply insert_HdRel; [| exact Hhd].
      destruct (comparator_le_total x y) as [Hxy | Hyx]; [| exact Hyx].
      unfold comparator_le in Hxy. lia.
Qed.

Lemma Array_sort_Sorted l : Sorted comparator_le (Array_sort comparator l).
Proof.
  induction l as [|x l IH]; simpl; [constructor | apply insert_Sorted, IH].
Qed.

(** Stability: an item whose position is smaller than all those of [l]
    is inserted in front of the items of [l] of the same criterion. *)
Lemma insert_filter (t : option Z) x l :
  (forall y, y ∈ l -> (index x < index y)%nat) ->
  List.filter (fun it => bool_decide (criteria it = t)) (insert comparator x l)
  = List.filter (fun it => bool_decide (criteria it = t)) (x :: l).
Proof.
  induction l as [|y l IH]; intros Hidx; [reflexivity |].
  simpl insert.
  destruct (Z.leb_spec (comparator x y) 0) as [Hle | Hgt]; [reflexivity |].
  assert (Hne : criteria x ≠ criteria y).
  { intros Heq. assert (Hxy : comparator_le x y); [| unfold comparator_le in Hxy; lia].
    apply comparator_le_iff. right. split; [exact Heq |].
    apply Nat.lt_le_incl, Hidx. left. }
  assert (IH' := IH (fun z Hz => Hidx z (list_elem_of_further _ _ _ Hz))).
  simpl in *. rewrite IH'.
  repeat case_bool_decide; simplify_eq; reflexivity.
Qed.

Section decorate.

Variable iteratee : A -> option Z.

Lemma decorate_value (i : nat) (obj : list A) :
  map value (decorate iteratee i obj) = obj.
Proof.
  revert i. induction obj as [|v obj IH]; intros i; simpl; [reflexivity |].
  rewrite IH. reflexivity.
Qed.

Lemma decorate_index (i : nat) (obj : list A) x :
  x ∈ decorate iteratee i obj -> (i <= index x)%nat.
Proof.
  revert i. induction obj as [|v obj IH]; intros i; simpl.
  - intros Hin. inversion Hin.
  - rewrite elem_of_cons. intros [-> | Hin]; simpl; [lia |].
    apply IH in Hin. lia.
Qed.

Lemma decorate_criteria (i : nat) (obj : list A) :
  Forall (fun x => criteria x = iteratee (value x)) (decorate iteratee i obj).
Proof.
  revert i. induction obj as [|v obj IH]; intros i; simpl; constructor;
    [reflexivity | apply IH].
Qed.

Lemma Array_sort_decorate_filter (t : option Z) (i : nat) (obj : list A) :
  List.filter (fun it => bool_decide (criteria it = t))
    (Array_sort comparator (decorate iteratee i obj))
  = List.filter (fun it => bool_decide (criteria it = t))
      (decorate iteratee i obj).
Proof.
  revert i. induction obj as [|v obj IH]; intros i; [reflexivity |].
  simpl decorate. simpl Array_sort. rewrite insert_filter.
  - simpl. rewrite IH. reflexivity.
  - intros y Hy. rewrite Array_sort_Permutation in Hy.
    apply decorate_index in Hy. simpl. lia.
Qed.

Lemma filter_criteria_value (t : option Z) l :
  Forall (fun x => criteria x = iteratee (value x)) l ->
  map value (List.filter (fun it => bool_decide (criteria it = t)) l)
  = List.filter (fun v => bool_decide (iteratee v = t)) (map value l).
Proof.
  induction 1 as [|x l Hx Hl IH]; simpl; [reflexivity |].
  rewrite Hx. case_bool_decide; simpl; rewrite IH; reflexivity.
Qed.

(** [sortBy] keeps every value, once. *)
Lemma sortBy_Permutation (obj : list A) : sortBy iteratee obj ≡ₚ obj.
Proof.
  unfold sortBy. rewrite Array_sort_Permutation, decorate_value. reflexivity.
Qed.

(** [sortBy] is stable: the values of one criterion keep their order. *)
Lemma sortBy_stable (t : option Z) (obj : list A) :
  List.filter (fun v => bool_decide (iteratee v = t)) (sortBy iteratee obj)
  = List.filter (fun v => bool_decide (iteratee v = t)) obj.
Proof.
  unfold sortBy.
  rewrite <- filter_criteria_value.
  - rewrite Array_sort_decorate_filter, filter_criteria_value,
      decorate_value; [reflexivity | apply decorate_criteria].
  - rewrite Array_sort_Permutation. apply decorate_criteria.
Qed.

(** [sortBy] orders by criterion, [undefined] last. *)
Lemma sortBy_StronglySorted (obj : list A) :
  StronglySorted (fun v1 v2 => timestamp_le (iteratee v1) (iteratee v2))
    (sortBy iteratee obj).
Proof.
  unfold sortBy.
  assert (Hs : StronglySorted comparator_le
                 (Array_sort comparator (decorate iteratee 0 obj))).
  { apply Sorted_StronglySorted; [apply _ | apply Array_sort_Sorted]. }
  assert (Hc : Forall (fun x => criteria x = iteratee (value x))
                 (Array_sort comparator (decorate iteratee 0 obj))).
  { rewrite Array_sort_Permutation. apply decorate_criteria. }
  induction Hs as [|x l Hl IH Hx]; simpl; [constructor |].
  apply Forall_cons in Hc as [Hcx Hcl].
  constructor; [apply IH, Hcl |].
  rewrite Forall_forall in Hx, Hcl. apply Forall_forall.
  intros v Hv. apply list_elem_of_fmap in Hv as (y & -> & Hy).
  rewrite <- Hcx, <- (Hcl y Hy).
  apply comparator_le_timestamp, Hx, Hy.
Qed.

(** The insertion sort is only a stand-in: whatever order of the items
    of [sortBy] agrees with the comparator is the one it computes. *)
Lemma Array_sort_unique (i : nat) (obj : list A) l :
  l ≡ₚ decorate iteratee i obj ->
  Sorted comparator_le l ->
  l = Array_sort comparator (decorate iteratee i obj).
Proof.
  intros Hperm Hsorted.
  apply (Sorted_unique_strong comparator_le);
    [| exact Hsorted | apply Array_sort_Sorted
     | rewrite Array_sort_Permutation; exact Hperm].
  intros x y Hx Hy Hxy Hyx.
  destruct (comparator_le_antisym x y Hxy Hyx) as [_ Hidx].
  rewrite Hperm in Hx. rewrite Array_sort_Permutation in Hy.
  clear -Hx Hy Hidx. revert i Hx Hy.
  induction obj as [|v obj IH]; intros i Hx Hy; simpl in *.
  - inversion Hx.
  - apply elem_of_cons in Hx as [-> | Hx], Hy as [-> | Hy].
    + reflexivity.
    + apply decorate_index in Hy. simpl in Hidx. lia.
    + apply decorate_index in Hx. simpl in Hidx. lia.
    + eapply IH; eassumption.
Qed.

End decorate.

End Array_sort_facts.

(** ** Sorting reports by last visit *)

Lemma filter_has_reportID_valid (reports : list entry) :
  Some <$> filter_has_reportID reports = List.filter is_valid reports.
Proof.
  induction reports as [|[r|] reports IH]; simpl; [reflexivity | | exact IH].
  destruct (truthy (reportID r)); simpl; rewrite <- IH; reflexivity.
Qed.

Lemma filter_Some {A} (p : A -> bool) (l : list A) :
  Some <$> List.filter p l = List.filter (from_option p false) (Some <$> l).
Proof.
  induction l as [|x l IH]; [reflexivity |].
  cbn. destruct (p x); cbn; rewrite <- IH; reflexivity.
Qed.

(** C1. [sortReportsByLastVisited] returns the entries of the collection
    that are truthy and have a truthy [reportID], each as often as it
    occurs, in non-decreasing order of [lastVisitedTimestamp] (a report
    without timestamp after those with one), the entries of one timestamp
    in the order the collection has them. *)
Theorem sortReportsByLastVisited_spec (reports : collection entry) :
  Some <$> sortReportsByLastVisited reports ≡ₚ valid_entries reports
  /\ StronglySorted visited_le (sortReportsByLastVisited reports)
  /\ (forall t : option Z,
      Some <$> List.filter (visited_at t) (sortReportsByLastVisited reports)
      = List.filter (from_option (visited_at t) false) (valid_entries reports)).
Proof.
  unfold sortReportsByLastVisited, valid_entries. split; [| split].
  - rewrite <- filter_has_reportID_valid.
    apply fmap_Permutation, sortBy_Permutation.
  - apply sortBy_StronglySorted.
  - intros t. unfold visited_at.
    rewrite sortBy_stable, filter_Some, filter_has_reportID_valid.
    reflexivity.
Qed.

Example sortReportsByLastVisited_run :
  sortReportsByLastVisited
    (Object
       [ ("report_1", Some (Sample.report 1 PUndefined (Some 5)));
         ("report_x", None);
         ("report_0", Some (Sample.report 0 PUndefined (Some 1)));
         ("report_2", Some (Sample.report 2 PUndefined (Some 3)));
         ("report_3", Some (Sample.report 3 PUndefined (Some 5)));
         ("report_4", Some (Sample.report 4 PUndefined None));
         ("report_5", Some (Sample.report 5 PUndefined (Some 3))) ])
  = [ Sample.report 2 PUndefined (Some 3);
      Sample.report 5 PUndefined (Some 3);
      Sample.report 1 PUndefined (Some 5);
      Sample.report 3 PUndefined (Some 5);
      Sample.report 4 PUndefined None ].
Proof. reflexivity. Qed.

(** ** The last accessed report *)

Lemma StronglySorted_filter {A} (R : relation A) (p : A -> bool) (l : list A) :
  StronglySorted R l -> StronglySorted R (List.filter p l).
Proof.
  induction 1 as [|x l Hl IH Hx]; simpl; [constructor |].
  destruct (p x); [| exact IH].
  constructor; [exact IH |].
  rewrite Forall_forall in Hx. apply Forall_forall.
  intros y Hy. apply Hx, list_elem_of_In.
  apply list_elem_of_In, filter_In in Hy. tauto.
Qed.

Lemma StronglySorted_last {A} (R : relation A) `{!Reflexive R}
    (l : list A) (x : A) :
  StronglySorted R l -> last l = Some x -> forall y, y ∈ l -> R y x.
Proof.
  induction 1 as [|z l Hl IH Hz]; intros Hlast y Hy.
  - inversion Hy.
  - destruct l as [|z' l'].
    + simpl in Hlast. apply list_elem_of_singleton in Hy. simplify_eq.
      reflexivity.
    + rewrite last_cons_cons in Hlast.
      apply elem_of_cons in Hy as [-> | Hy]; [| apply IH; assumption].
      rewrite Forall_forall in Hz. apply Hz.
      apply last_Some_elem_of. exact Hlast.
Qed.

#[global] Instance visited_le_refl : Reflexive visited_le.
Proof.
  intros r. unfold visited_le, timestamp_le.
  destruct (lastVisitedTimestamp r); [lia | exact I].
Qed.

Lemma findLastAccessedReport_last (CONST : Constants)
    (reports : collection entry) (ignoreDefaultRooms : prim) :
  findLastAccessedReport CONST reports ignoreDefaultRooms
  = last (reports_left CONST reports ignoreDefaultRooms).
Proof.
  unfold findLastAccessedReport, reports_left, last_.
  destruct (truthy ignoreDefaultRooms); simpl; [reflexivity |].
  f_equal. induction (sortReportsByLastVisited reports) as [|r l IH];
    simpl; congruence.
Qed.

(** C4. [findLastAccessedReport] returns the last of the reports of
    [sortReportsByLastVisited] that are left once the default rooms are
    dropped, if the flag asks for it; it returns nothing exactly when none
    is left, as for the empty collection.  The report returned is one of
    those left, none of which was visited later; with the flag set it is
    not a default room, whatever the timestamps of the default rooms. *)
Theorem findLastAccessedReport_spec (CONST : Constants)
    (reports : collection entry) (ignoreDefaultRooms : prim) :
  findLastAccessedReport CONST reports ignoreDefaultRooms
  = last (reports_left CONST reports ignoreDefaultRooms)
  /\ (findLastAccessedReport CONST reports ignoreDefaultRooms = None <->
      reports_left CONST reports ignoreDefaultRooms = [])
  /\ (toArray reports = [] ->
      findLastAccessedReport CONST reports ignoreDefaultRooms = None)
  /\ (forall r, findLastAccessedReport CONST reports ignoreDefaultRooms = Some r ->
      r ∈ reports_left CONST reports ignoreDefaultRooms
      /\ (forall r', r' ∈ reports_left CONST reports ignoreDefaultRooms ->
          visited_le r' r)
      /\ (truthy ignoreDefaultRooms = true -> isDefaultRoom CONST r = false)).
Proof.
  rewrite findLastAccessedReport_last.
  split; [reflexivity |]. split; [apply last_None |]. split.
  - intros Hempty. apply last_None.
    unfold reports_left, sortReportsByLastVisited. rewrite Hempty. reflexivity.
  - intros r Hlast.
    assert (Hin : r ∈ reports_left CONST reports ignoreDefaultRooms)
      by (apply last_Some_elem_of; exact Hlast).
    split; [exact Hin |]. split.
    + apply (StronglySorted_last visited_le _ r); [| exact Hlast].
      apply StronglySorted_filter.
      apply (sortBy_StronglySorted lastVisitedTimestamp).
    + intros Hflag. unfold reports_left in Hin.
      apply list_elem_of_In, filter_In in Hin as [_ Hkeep].
      rewrite Hflag in Hkeep. simpl in Hkeep.
      apply negb_true_iff. exact Hkeep.
Qed.

Lemma findLastAccessedReport_spec_witness :
  findLastAccessedReport Sample.CONST (Array []) (PBool false) = None
  /\ isDefaultRoom Sample.CONST (Sample.report 2 PUndefined (Some 5)) = false.
Proof.
  split.
  - apply (proj1 (proj2 (proj2 (findLastAccessedReport_spec Sample.CONST
             (Array []) (PBool false))))).
    reflexivity.
  - apply (proj2 (proj2 (proj2 (findLastAccessedReport_spec Sample.CONST
             (Array [ Some (Sample.report 2 PUndefined (Some 5));
                      Some (Sample.report 1 (PStr "policyAdmins") (Some 9)) ])
             (PBool true)))) (Sample.report 2 PUndefined (Some 5))).
    + reflexivity.
    + reflexivity.
Defined.

Example findLastAccessedReport_run :
  findLastAccessedReport Sample.CONST
    (Array [ Some (Sample.report 1 PUndefined (Some 5));
             Some (Sample.report 2 PUndefined (Some 9)) ]) PUndefined
  = Some (Sample.report 2 PUndefined (Some 9))
  /\ findLastAccessedReport Sample.CONST
       (Array [ Some (Sample.report 2 PUndefined (Some 5));
                Some (Sample.report 1 (PStr "policyAdmins") (Some 9)) ]) (PBool true)
     = Some (Sample.report 2 PUndefined (Some 5))
  /\ findLastAccessedReport Sample.CONST
       (Array [ Some (Sample.report 2 PUndefined (Some 5));
                Some (Sample.report 1 (PStr "policyAdmins") (Some 9)) ]) (PBool false)
     = Some (Sample.report 1 (PStr "policyAdmins") (Some 9)).
Proof. repeat split. Qed.

(** ** The subtitle of a chat room *)

Section subtitle.

Variable CONST : Constants.
Variable translateLocal : string -> option prim -> string.

Lemma domain_all_isDefaultRoom (report : Report) :
  chatType report = PStr (REPORT_CHAT_TYPE_DOMAIN_ALL CONST) ->
  isDefaultRoom CONST report = true.
Proof.
  intros Hd. apply isDefaultRoom_true. right. right.
  rewrite Hd. apply bool_decide_eq_true. reflexivity.
Qed.

Lemma isArchivedRoom_room (report : Report) :
  isArchivedRoom CONST report = true ->
  negb (isDefaultRoom CONST report)
  && negb (isUserCreatedPolicyRoom CONST report)
  && negb (isPolicyExpenseChat CONST report) = false.
Proof.
  unfold isArchivedRoom, isChatRoom.
  destruct (isDefaultRoom CONST report), (isUserCreatedPolicyRoom CONST report),
    (isPolicyExpenseChat CONST report); simpl; congruence.
Qed.

End subtitle.

(** C7. [getChatRoomSubtitle] returns the empty string for a report that is
    no default room, user-created policy room or policy-expense chat; for a
    domain-all room, its name without the first character, so [Acme] for
    [#Acme]; for an archived room that is not domain-all, [oldPolicyName];
    for the caller's own policy-expense chat, not archived, the workspace
    label; and otherwise the [name] under [policy_<policyID>] in the policy
    map, or the unavailable label when there is no such entry. *)
Theorem getChatRoomSubtitle_spec (CONST : Constants)
    (translateLocal : string -> option prim -> string)
    (report : Report) (policiesMap : gmap string Policy) :
  (isDefaultRoom CONST report = false ->
   isUserCreatedPolicyRoom CONST report = false ->
   isPolicyExpenseChat CONST report = false ->
   getChatRoomSubtitle CONST translateLocal report policiesMap = Ok (PStr ""))
  /\ (is_domain_all CONST report ->
      forall reportName_ : string, reportName report = PStr reportName_ ->
      getChatRoomSubtitle CONST translateLocal report policiesMap
      = Ok (PStr (substring_from 1 reportName_))
      /\ (forall domainName, reportName_ = String.append "#" domainName ->
          getChatRoomSubtitle CONST translateLocal report policiesMap
          = Ok (PStr domainName)))
  /\ (~ is_domain_all CONST report -> isArchivedRoom CONST report = true ->
      getChatRoomSubtitle CONST translateLocal report policiesMap
      = Ok (oldPolicyName report))
  /\ (~ is_domain_all CONST report -> isArchivedRoom CONST report = false ->
      isPolicyExpenseChat CONST report = true ->
      truthy (isOwnPolicyExpenseChat report) = true ->
      getChatRoomSubtitle CONST translateLocal report policiesMap
      = Ok (PStr (translateLocal "workspace.common.workspace" None)))
  /\ (isDefaultRoom CONST report = true
      \/ isUserCreatedPolicyRoom CONST report = true
      \/ isPolicyExpenseChat CONST report = true ->
      ~ is_domain_all CONST report -> isArchivedRoom CONST report = false ->
      ~ (isPolicyExpenseChat CONST report = true
         /\ truthy (isOwnPolicyExpenseChat report) = true) ->
      getChatRoomSubtitle CONST translateLocal report policiesMap
      = Ok (match policiesMap !! String.append "policy_" (toString (policyID report)) with
            | Some policy =>
                match name policy with
                | PUndefined => PStr (translateLocal "workspace.common.unavailable" None)
                | policyName => policyName
                end
            | None => PStr (translateLocal "workspace.common.unavailable" None)
            end)).
Proof.
  unfold is_domain_all, getChatRoomSubtitle.
  split; [| split; [| split; [| split]]].
  - intros -> -> ->. reflexivity.
  - intros Hd reportName_ Hname.
    rewrite (domain_all_isDefaultRoom CONST report Hd). simpl.
    unfold strict_eq. rewrite bool_decide_eq_true_2 by exact Hd.
    rewrite Hname. simpl. split; [reflexivity |].
    intros domainName ->. reflexivity.
  - intros Hnd Harch.
    rewrite (isArchivedRoom_room CONST report Harch).
    unfold strict_eq. rewrite bool_decide_eq_false_2 by exact Hnd.
    rewrite Harch. reflexivity.
  - intros Hnd Harch Hexp Hown.
    rewrite Hexp, andb_false_r.
    unfold strict_eq. rewrite bool_decide_eq_false_2 by exact Hnd.
    rewrite Harch, Hown. reflexivity.
  - intros Hroom Hnd Harch Hown.
    assert (negb (isDefaultRoom CONST report)
            && negb (isUserCreatedPolicyRoom CONST report)
            && negb (isPolicyExpenseChat CONST report) = false) as ->.
    { destruct Hroom as [-> | [-> | ->]]; simpl;
        rewrite ?andb_false_r; reflexivity. }
    unfold strict_eq. rewrite bool_decide_eq_false_2 by exact Hnd.
    rewrite Harch.
    assert (isPolicyExpenseChat CONST report
            && truthy (isOwnPolicyExpenseChat report) = false) as ->.
    { apply not_true_is_false. rewrite andb_true_iff. exact Hown. }
    unfold policy_name, or_default, ONYXKEYS_COLLECTION_POLICY.
    destruct (policiesMap !! _) as [policy|]; [| reflexivity].
    destruct (name policy); reflexivity.
Qed.

Lemma getChatRoomSubtitle_spec_witness :
  getChatRoomSubtitle Sample.CONST Sample.translateLocal
    (Sample.report 1 PUndefined (Some 5)) ∅ = Ok (PStr "")
  /\ getChatRoomSubtitle Sample.CONST Sample.translateLocal
       (Sample.room "domainAll" "#Acme" "" 0 0 false "P1") ∅ = Ok (PStr "Acme")
  /\ getChatRoomSubtitle Sample.CONST Sample.translateLocal
       (Sample.room "policyRoom" "#room" "Old" 2 2 false "P1") ∅ = Ok (PStr "Old")
  /\ getChatRoomSubtitle Sample.CONST Sample.translateLocal
       (Sample.room "policyExpenseChat" "me" "Old" 0 0 true "P1") ∅
     = Ok (PStr "workspace.common.workspace")
  /\ getChatRoomSubtitle Sample.CONST Sample.translateLocal
       (Sample.room "policyAdmins" "#admins" "Old" 0 0 false "P1")
       {[ "policy_P1" := {| name := PStr "Acme Inc" |} ]}
     = Ok (PStr "Acme Inc")
  /\ getChatRoomSubtitle Sample.CONST Sample.translateLocal
       (Sample.room "policyAdmins" "#admins" "Old" 0 0 false "P1") ∅
     = Ok (PStr "workspace.common.unavailable").
Proof.
  split; [| split; [| split; [| split; [| split]]]].
  - apply (proj1 (getChatRoomSubtitle_spec Sample.CONST Sample.translateLocal
             (Sample.report 1 PUndefined (Some 5)) ∅)); reflexivity.
  - apply (proj1 (proj2 (getChatRoomSubtitle_spec Sample.CONST
             Sample.translateLocal
             (Sample.room "domainAll" "#Acme" "" 0 0 false "P1") ∅))
             eq_refl "#Acme" eq_refl).
    reflexivity.
  - apply (proj1 (proj2 (proj2 (getChatRoomSubtitle_spec Sample.CONST
             Sample.translateLocal
             (Sample.room "policyRoom" "#room" "Old" 2 2 false "P1") ∅))));
      [discriminate | reflexivity].
  - apply (proj1 (proj2 (proj2 (proj2 (getChatRoomSubtitle_spec Sample.CONST
             Sample.translateLocal
             (Sample.room "policyExpenseChat" "me" "Old" 0 0 true "P1") ∅)))));
      [discriminate | reflexivity | reflexivity | reflexivity].
  - rewrite (proj2 (proj2 (proj2 (proj2 (getChatRoomSubtitle_spec Sample.CONST
               Sample.translateLocal
               (Sample.room "policyAdmins" "#admins" "Old" 0 0 false "P1")
               {[ "policy_P1" := {| name := PStr "Acme Inc" |} ]})))));
      [reflexivity | left; reflexivity | discriminate | reflexivity
      | intros [? _]; discriminate].
  - rewrite (proj2 (proj2 (proj2 (proj2 (getChatRoomSubtitle_spec Sample.CONST
               Sample.translateLocal
               (Sample.room "policyAdmins" "#admins" "Old" 0 0 false "P1") ∅)))));
      [reflexivity | left; reflexivity | discriminate | reflexivity
      | intros [? _]; discriminate].
Defined.

(** ** The local time of the recipient *)

Lemma intersection_loop_elem_of {A} `{EqDecision A}
    (array others result : list A) (x : A) :
  x ∈ intersection_loop array others result <->
  x ∈ result \/ (x ∈ array /\ x ∈ others).
Proof.
  revert result. induction array as [|item rest IH]; intros result; simpl.
  - rewrite elem_of_nil. tauto.
  - unfold contains. repeat case_bool_decide; rewrite IH; set_solver.
Qed.

Lemma hasExpensifyEmails_true (CONST : Constants) (emails : list string) :
  hasExpensifyEmails CONST emails = true <->
  exists e, e ∈ emails /\ e ∈ EXPENSIFY_EMAILS CONST.
Proof.
  unfold hasExpensifyEmails, intersection.
  rewrite Nat.ltb_lt. split.
  - intros Hlen.
    destruct (intersection_loop emails (EXPENSIFY_EMAILS CONST) []) as [|e l] eqn:Hi;
      [simpl in Hlen; lia |].
    exists e.
    assert (He : e ∈ intersection_loop emails (EXPENSIFY_EMAILS CONST) [])
      by (rewrite Hi; left).
    apply intersection_loop_elem_of in He as [He | He]; [inversion He | exact He].
  - intros (e & He).
    assert (Hin : e ∈ intersection_loop emails (EXPENSIFY_EMAILS CONST) [])
      by (apply intersection_loop_elem_of; right; exact He).
    destruct (intersection_loop emails (EXPENSIFY_EMAILS CONST) []);
      [inversion Hin | simpl; lia].
Qed.

Lemma canShowReportRecipientLocalTime_truthy (CONST : Constants)
    (personalDetails : gmap string PersonalDetails) (report : Report) :
  truthy (canShowReportRecipientLocalTime CONST personalDetails report) = true <->
  hasExpensifyEmails CONST (default [] (participants report)) = false
  /\ (length (default [] (participants report)) <= 1)%nat
  /\ exists profile,
       personalDetails !! toString (default [] (participants report) !! 0%nat)
       = Some profile
       /\ truthy (selected (default (DEFAULT_TIME_ZONE CONST) (timezone profile)))
          = true.
Proof.
  unfold canShowReportRecipientLocalTime.
  rewrite !truthy_and, !andb_true_iff. simpl.
  rewrite !negb_true_iff, Nat.ltb_ge.
  destruct (personalDetails !! _) as [profile|]; simpl.
  - split.
    + intros [[? ?] ?]. eauto.
    + intros (? & ? & profile' & [= <-] & ?). auto.
  - split.
    + intros [_ ?]. discriminate.
    + intros (_ & _ & ? & ? & _). discriminate.
Qed.

(** C8, as the code has it.  For a personal-details map without an entry
    under ["undefined"], [canShowReportRecipientLocalTime] is truthy
    exactly when the report has one participant, no Expensify e-mail, a
    profile for that participant, and a truthy [selected] in the profile's
    timezone, or in the default timezone when the profile has none. *)
Theorem canShowReportRecipientLocalTime_spec (CONST : Constants)
    (personalDetails : gmap string PersonalDetails) (report : Report) :
  personalDetails !! "undefined" = None ->
  truthy (canShowReportRecipientLocalTime CONST personalDetails report) = true <->
  exists participant profile,
    participants report = Some [participant]
    /\ personalDetails !! participant = Some profile
    /\ truthy (selected (default (DEFAULT_TIME_ZONE CONST) (timezone profile)))
       = true
    /\ participant ∉ EXPENSIFY_EMAILS CONST.
Proof.
  intros Hundef. rewrite canShowReportRecipientLocalTime_truthy. split.
  - intros (Hexp & Hlen & profile & Hprofile & Hsel).
    destruct (participants report) as [[|participant [|? ?]]|]; simpl in *;
      try lia; try congruence.
    exists participant, profile. repeat split; try assumption.
    intros Hin. apply not_true_iff_false in Hexp. apply Hexp.
    apply hasExpensifyEmails_true. exists participant. split; [left | exact Hin].
  - intros (participant & profile & -> & Hprofile & Hsel & Hexp). simpl.
    split; [| split; [lia | eauto]].
    apply not_true_iff_false. rewrite hasExpensifyEmails_true.
    intros (e & He & Hin). apply list_elem_of_singleton in He as ->. auto.
Qed.

Lemma canShowReportRecipientLocalTime_spec_witness :
  truthy (canShowReportRecipientLocalTime Sample.CONST
            {[ "a@example.com" := {| timezone := Some {| selected := PBool true |} |} ]}
            (Sample.with_participants (Sample.report 1 PUndefined None)
               ["a@example.com"])) = true.
Proof.
  apply (canShowReportRecipientLocalTime_spec Sample.CONST
           {[ "a@example.com" := {| timezone := Some {| selected := PBool true |} |} ]}
           (Sample.with_participants (Sample.report 1 PUndefined None)
              ["a@example.com"])); [reflexivity |].
  exists "a@example.com", {| timezone := Some {| selected := PBool true |} |}.
  repeat split.
  unfold Sample.CONST; simpl. rewrite !not_elem_of_cons.
  repeat split; try discriminate. apply not_elem_of_nil.
Defined.

(** The claim C8 fails on the code: a profile without timezone is given the
    default timezone, and the local time is shown when that has a truthy
    [selected]. *)
Lemma canShowReportRecipientLocalTime_default_timezone :
  canShowReportRecipientLocalTime Sample.CONST Sample.profile_without_timezone
    Sample.direct_chat
  = PStr "America/Los_Angeles"
  /\ ~ (truthy (canShowReportRecipientLocalTime Sample.CONST
                  Sample.profile_without_timezone Sample.direct_chat) = true
        <-> local_time_shown_as_specified Sample.CONST
              Sample.profile_without_timezone Sample.direct_chat).
Proof.
  split; [reflexivity |].
  intros [Hshown _].
  destruct (Hshown eq_refl) as (participant & profile & tz & Hp & Hprofile & Htz & _).
  simpl in Hp. injection Hp as <-.
  vm_compute in Hprofile. injection Hprofile as <-.
  discriminate.
Qed.

(** ** Absent fields *)

Lemma isDeletedAction_message (action : ReportAction) (parts : list MessagePart) :
  message action = Some parts ->
  isDeletedAction action
  = Ok (match parts with
        | [] => true
        | part :: _ => strict_eq (html part) (PStr "")
        end).
Proof.
  intros Hm. unfold isDeletedAction. rewrite Hm.
  destruct parts as [|part parts]; reflexivity.
Qed.

Example isDeletedAction_run :
  isDeletedAction (Sample.comment "a" (PStr "1") (Some [])) = Ok true
  /\ isDeletedAction
       (Sample.comment "a" (PStr "1") (Some [{| html := PStr ""; text := PUndefined |}]))
     = Ok true
  /\ isDeletedAction
       (Sample.comment "a" (PStr "1") (Some [{| html := PStr "x"; text := PStr "x" |}]))
     = Ok false.
Proof. repeat split. Qed.

(** C5, as the code has it.  Every operation returns a value when the
    action handed to [isDeletedAction] has its [message] and the domain-all
    report handed to [getChatRoomSubtitle] has a string [reportName];
    [isConciergeChatReport], the third operation that reads a member of an
    optional field, always returns.  The other absent fields are defaulted:
    without [message] the text checked by [canEditReportAction] is the empty
    string, so that editing is allowed as deleting is; without
    [participants] a report is no Concierge chat; without [chatType] (no
    chat type being the empty string) it is no room and has the empty
    subtitle; without [timezone] the profile of the single participant gets
    the default timezone. *)
Theorem absent_fields_defaulted (CONST : Constants)
    (translateLocal : string -> option prim -> string) :
  (forall action parts, message action = Some parts ->
   returns (isDeletedAction action))
  /\ (forall report policiesMap,
      (is_domain_all CONST report -> exists s, reportName report = PStr s) ->
      returns (getChatRoomSubtitle CONST translateLocal report policiesMap))
  /\ (forall report, returns (isConciergeChatReport CONST report))
  /\ (forall sessionEmail action, message action = None ->
      truthy (canEditReportAction CONST sessionEmail action)
      = truthy (canDeleteReportAction CONST sessionEmail action))
  /\ (forall report, participants report = None ->
      isConciergeChatReport CONST report = Ok false)
  /\ (forall report policiesMap,
      "" ∉ chat_types CONST -> chatType report = PUndefined ->
      isChatRoom CONST report = false
      /\ isPolicyExpenseChat CONST report = false
      /\ getChatRoomSubtitle CONST translateLocal report policiesMap
         = Ok (PStr ""))
  /\ (forall personalDetails report participant profile,
      participants report = Some [participant] ->
      participant ∉ EXPENSIFY_EMAILS CONST ->
      personalDetails !! participant = Some profile ->
      timezone profile = None ->
      canShowReportRecipientLocalTime CONST personalDetails report
      = selected (DEFAULT_TIME_ZONE CONST)).
Proof.
  split; [| split; [| split; [| split; [| split; [| split]]]]].
  - intros action parts Hm. eexists. apply isDeletedAction_message, Hm.
  - intros report policiesMap Hname.
    unfold getChatRoomSubtitle, strict_eq.
    destruct (_ && _ && _); [eexists; reflexivity |].
    case_bool_decide as Hd.
    + destruct (Hname Hd) as [s ->]. eexists. reflexivity.
    + destruct (isArchivedRoom CONST report); [eexists; reflexivity |].
      destruct (_ && _); eexists; reflexivity.
  - intros report. eexists. apply isConciergeChatReport_value.
  - intros sessionEmail action Hm.
    rewrite canEdit_canDelete, truthy_and.
    unfold first_message_text. rewrite Hm. simpl. apply andb_true_r.
  - intros report Hp. unfold isConciergeChatReport. rewrite Hp. reflexivity.
  - intros report policiesMap Hne Hno.
    destruct (no_chatType_no_room CONST report Hne Hno) as (Hd & Hu & He).
    unfold getChatRoomSubtitle, isChatRoom. rewrite Hd, Hu, He.
    repeat split.
  - intros personalDetails report participant profile Hp Hexp Hprofile Htz.
    unfold canShowReportRecipientLocalTime. rewrite Hp. simpl.
    rewrite Hprofile. simpl. rewrite Htz. simpl.
    assert (hasExpensifyEmails CONST [participant] = false) as ->.
    { apply not_true_iff_false. rewrite hasExpensifyEmails_true.
      intros (e & He & Hin). apply list_elem_of_singleton in He as ->. auto. }
    reflexivity.
Qed.

Lemma absent_fields_defaulted_witness :
  returns (isDeletedAction (Sample.comment "a" (PStr "1") (Some [])))
  /\ returns (getChatRoomSubtitle Sample.CONST Sample.translateLocal
                (Sample.room "domainAll" "#Acme" "" 0 0 false "P1") ∅)
  /\ truthy (canEditReportAction Sample.CONST (PStr "a")
               (Sample.comment "a" (PStr "1") None))
     = truthy (canDeleteReportAction Sample.CONST (PStr "a")
                 (Sample.comment "a" (PStr "1") None))
  /\ isConciergeChatReport Sample.CONST (Sample.report 1 PUndefined None) = Ok false
  /\ getChatRoomSubtitle Sample.CONST Sample.translateLocal
       (Sample.report 1 PUndefined (Some 3)) ∅ = Ok (PStr "")
  /\ canShowReportRecipientLocalTime Sample.CONST Sample.profile_without_timezone
       Sample.direct_chat
     = PStr "America/Los_Angeles".
Proof.
  split; [| split; [| split; [| split; [| split]]]].
  - apply (proj1 (absent_fields_defaulted Sample.CONST Sample.translateLocal)
             (Sample.comment "a" (PStr "1") (Some [])) []).
    reflexivity.
  - apply (proj1 (proj2 (absent_fields_defaulted Sample.CONST Sample.translateLocal))).
    intros _. exists "#Acme". reflexivity.
  - apply (proj1 (proj2 (proj2 (proj2
             (absent_fields_defaulted Sample.CONST Sample.translateLocal))))).
    reflexivity.
  - apply (proj1 (proj2 (proj2 (proj2 (proj2
             (absent_fields_defaulted Sample.CONST Sample.translateLocal)))))).
    reflexivity.
  - apply (proj1 (proj2 (proj2 (proj2 (proj2 (proj2
             (absent_fields_defaulted Sample.CONST Sample.translateLocal))))))
             (Sample.report 1 PUndefined (Some 3)) ∅).
    + unfold chat_types; simpl. rewrite !not_elem_of_cons.
      repeat split; try discriminate. apply not_elem_of_nil.
    + reflexivity.
  - apply (proj2 (proj2 (proj2 (proj2 (proj2 (proj2
             (absent_fields_defaulted Sample.CONST Sample.translateLocal))))))
             Sample.profile_without_timezone Sample.direct_chat
             "a@example.com" {| timezone := None |}).
    + reflexivity.
    + unfold Sample.CONST; simpl. rewrite !not_elem_of_cons.
      repeat split; try discriminate. apply not_elem_of_nil.
    + reflexivity.
    + reflexivity.
Defined.

(** The claim C5 fails on the code: [isDeletedAction] reads [length] of an
    absent [message], and [getChatRoomSubtitle] calls [substring] on the
    absent [reportName] of a domain-all room; both raise a [TypeError]. *)
Lemma absent_message_or_reportName_throws :
  isDeletedAction (Sample.comment "a" (PStr "1") None) = Throw TypeError
  /\ getChatRoomSubtitle Sample.CONST Sample.translateLocal
       (Sample.report 1 (PStr "domainAll") (Some 3)) ∅ = Throw TypeError
  /\ ~ returns (isDeletedAction (Sample.comment "a" (PStr "1") None))
  /\ ~ returns (getChatRoomSubtitle Sample.CONST Sample.translateLocal
                  (Sample.report 1 (PStr "domainAll") (Some 3)) ∅).
Proof.
  repeat split; try (intros [v Hv]; discriminate Hv).
Qed.


(** * Further properties of the operations *)

(** ** Trimming the last message text *)

Lemma substring_to_length (n : nat) (s : string) :
  String.length (substring_to n s) = Nat.min n (String.length s).
Proof.
  revert s. induction n as [|n IH]; intros [|c s]; simpl; try reflexivity.
  rewrite IH. reflexivity.
Qed.

Lemma substring_to_all (n : nat) (s : string) :
  (String.length s <= n)%nat -> substring_to n s = s.
Proof.
  revert s. induction n as [|n IH]; intros [|c s]; simpl; try reflexivity.
  - lia.
  - intros Hlen. rewrite IH by lia. reflexivity.
Qed.

Lemma substring_to_from (n : nat) (s : string) :
  String.append (substring_to n s) (substring_from n s) = s.
Proof.
  revert s. induction n as [|n IH]; intros [|c s]; try reflexivity.
  change (String c (String.append (substring_to n s) (substring_from n s))
          = String c s).
  rewrite IH. reflexivity.
Qed.

(** X1. [formatReportLastMessageText] cuts the text at the maximal length:
    the result has the length of the text or the maximal length, whichever
    is smaller; it is the text itself when that is not longer than the
    maximum; and it is the beginning of the text, the text being the result
    followed by what [substring] from the maximum on gives. *)
Theorem formatReportLastMessageText_bound (CONST : Constants) (lastMessageText : string) :
  String.length (formatReportLastMessageText CONST lastMessageText)
  = Nat.min (REPORT_LAST_MESSAGE_TEXT_MAX_LENGTH CONST) (String.length lastMessageText)
  /\ (String.length (formatReportLastMessageText CONST lastMessageText)
      <= REPORT_LAST_MESSAGE_TEXT_MAX_LENGTH CONST)%nat
  /\ ((String.length lastMessageText <= REPORT_LAST_MESSAGE_TEXT_MAX_LENGTH CONST)%nat ->
      formatReportLastMessageText CONST lastMessageText = lastMessageText)
  /\ String.append (formatReportLastMessageText CONST lastMessageText)
       (substring_from (REPORT_LAST_MESSAGE_TEXT_MAX_LENGTH CONST) lastMessageText)
     = lastMessageText.
Proof.
  unfold formatReportLastMessageText. split; [| split; [| split]].
  - apply substring_to_length.
  - rewrite substring_to_length. lia.
  - apply substring_to_all.
  - apply substring_to_from.
Qed.

Lemma formatReportLastMessageText_bound_witness :
  formatReportLastMessageText Sample.CONST "Hello" = "Hello".
Proof.
  apply (proj1 (proj2 (proj2
           (formatReportLastMessageText_bound Sample.CONST "Hello")))).
  simpl. lia.
Defined.

(** X2. Trimming a trimmed text changes nothing. *)
Theorem formatReportLastMessageText_idempotent (CONST : Constants)
    (lastMessageText : string) :
  formatReportLastMessageText CONST
    (formatReportLastMessageText CONST lastMessageText)
  = formatReportLastMessageText CONST lastMessageText.
Proof.
  unfold formatReportLastMessageText.
  apply substring_to_all. rewrite substring_to_length. lia.
Qed.

(** ** Deleted actions *)

(** X3. [isDeletedAction] raises a [TypeError] exactly for an action
    without [message].  For an action with a message it answers true
    exactly when the message is empty or the [html] of its first part is the
    empty string; the other parts and the [text] play no role. *)
Theorem isDeletedAction_spec (action : ReportAction) :
  (isDeletedAction action = Throw TypeError <-> message action = None)
  /\ (isDeletedAction action = Ok true <->
      message action = Some []
      \/ exists part parts,
           message action = Some (part :: parts) /\ html part = PStr "")
  /\ (isDeletedAction action = Ok false <->
      exists part parts,
        message action = Some (part :: parts) /\ html part ≠ PStr "").
Proof.
  unfold isDeletedAction.
  destruct (message action) as [[|part parts]|]; simpl; unfold strict_eq.
  - split; [| split].
    + split; discriminate.
    + split; [auto | reflexivity].
    + split; [discriminate | intros (? & ? & ? & _); discriminate].
  - split; [| split].
    + split; discriminate.
    + split.
      * intros [= Hb]. apply bool_decide_eq_true in Hb. right. eauto.
      * intros [? | (? & ? & [= <- _] & Hh)]; [discriminate |].
        f_equal. apply bool_decide_eq_true. exact Hh.
    + split.
      * intros [= Hb]. apply bool_decide_eq_false in Hb. eauto.
      * intros (? & ? & [= <- _] & Hh).
        f_equal. apply bool_decide_eq_false. exact Hh.
  - split; [| split].
    + split; reflexivity.
    + split; [discriminate | intros [? | (? & ? & ? & _)]; discriminate].
    + split; [discriminate | intros (? & ? & ? & _); discriminate].
Qed.

Lemma isDeletedAction_spec_witness :
  isDeletedAction
    (Sample.comment "a" (PStr "1")
       (Some [{| html := PStr ""; text := PStr "gone" |};
              {| html := PStr "<b>x</b>"; text := PStr "x" |}])) = Ok true.
Proof.
  apply (proj1 (proj2 (isDeletedAction_spec _))).
  right. eexists _, _. split; reflexivity.
Defined.

(** ** Where the subtitle fails *)

(** X4. [getChatRoomSubtitle] raises a [TypeError] exactly for a domain-all
    room whose [reportName] is not a string; for every other report it
    returns. *)
Theorem getChatRoomSubtitle_throws (CONST : Constants)
    (translateLocal : string -> option prim -> string)
    (report : Report) (policiesMap : gmap string Policy) :
  getChatRoomSubtitle CONST translateLocal report policiesMap = Throw TypeError
  <-> is_domain_all CONST report /\ forall s, reportName report ≠ PStr s.
Proof.
  unfold is_domain_all. split.
  - intros Hthrow. unfold getChatRoomSubtitle, strict_eq in Hthrow.
    destruct (_ && _ && _); [discriminate |].
    case_bool_decide as Hd.
    + split; [exact Hd |]. intros s Hs. rewrite Hs in Hthrow. discriminate.
    + destruct (isArchivedRoom CONST report); [discriminate |].
      destruct (_ && _); discriminate.
  - intros [Hd Hname]. unfold getChatRoomSubtitle.
    rewrite (domain_all_isDefaultRoom CONST report Hd). simpl.
    unfold strict_eq. rewrite bool_decide_eq_true_2 by exact Hd.
    destruct (reportName report) as [| | | |s]; try reflexivity.
    destruct (Hname s eq_refl).
Qed.

Lemma getChatRoomSubtitle_throws_witness :
  getChatRoomSubtitle Sample.CONST Sample.translateLocal
    {| reportID := PNum 1; chatType := PStr "domainAll"; reportName := PNum 5;
       policyID := None; isOwnPolicyExpenseChat := PUndefined;
       oldPolicyName := PUndefined; statusNum := PUndefined;
       stateNum := PUndefined; lastVisitedTimestamp := None;
       participants := None |} ∅ = Throw TypeError.
Proof.
  apply (proj2 (getChatRoomSubtitle_throws Sample.CONST Sample.translateLocal _ ∅)).
  split; [reflexivity | discriminate].
Defined.

(** ** Expensify e-mails and Concierge *)

(** X5. [hasExpensifyEmails] is true exactly when one of the e-mails is an
    Expensify e-mail.  It is false of no e-mail at all, and the answer for
    two lists put together is the disjunction of the answers for each. *)
Theorem hasExpensifyEmails_spec (CONST : Constants) (emails more : list string) :
  (hasExpensifyEmails CONST emails = true <->
   exists e, e ∈ emails /\ e ∈ EXPENSIFY_EMAILS CONST)
  /\ hasExpensifyEmails CONST [] = false
  /\ hasExpensifyEmails CONST (emails ++ more)
     = hasExpensifyEmails CONST emails || hasExpensifyEmails CONST more.
Proof.
  split; [apply hasExpensifyEmails_true |]. split; [reflexivity |].
  apply Bool.eq_iff_eq_true.
  rewrite orb_true_iff, !hasExpensifyEmails_true.
  setoid_rewrite elem_of_app. naive_solver.
Qed.

Lemma hasExpensifyEmails_spec_witness :
  hasExpensifyEmails Sample.CONST ["a@example.com"; "chronos@expensify.com"] = true.
Proof.
  apply (proj1 (hasExpensifyEmails_spec Sample.CONST
                  ["a@example.com"; "chronos@expensify.com"] [])).
  exists "chronos@expensify.com". unfold Sample.CONST; simpl. set_solver.
Defined.

Lemma chatIncludesConcierge_truthy (CONST : Constants) (report : Report) :
  truthy (chatIncludesConcierge CONST report) = true <->
  exists ps, participants report = Some ps /\ EMAIL_CONCIERGE CONST ∈ ps.
Proof.
  unfold chatIncludesConcierge, contains.
  destruct (participants report) as [ps|]; simpl.
  - rewrite bool_decide_eq_true. split; [eauto |].
    intros (? & [= <-] & ?). assumption.
  - split; [discriminate | intros (? & ? & _); discriminate].
Qed.

(** X6. [chatIncludesConcierge] is truthy exactly when the report has
    participants and Concierge is one of them; it is [undefined], not
    [false], for a report without [participants].  A Concierge chat in the
    sense of [isConciergeChatReport] includes Concierge. *)
Theorem chatIncludesConcierge_spec (CONST : Constants) (report : Report) :
  (truthy (chatIncludesConcierge CONST report) = true <->
   exists ps, participants report = Some ps /\ EMAIL_CONCIERGE CONST ∈ ps)
  /\ (participants report = None ->
      chatIncludesConcierge CONST report = PUndefined)
  /\ (isConciergeChatReport CONST report = Ok true ->
      chatIncludesConcierge CONST report = PBool true).
Proof.
  split; [apply chatIncludesConcierge_truthy |].
  unfold chatIncludesConcierge, contains. split.
  - intros ->. reflexivity.
  - rewrite isConciergeChatReport_value. intros [= Hb].
    apply bool_decide_eq_true in Hb.
    destruct (participants report) as [ps|]; simpl in *; [| discriminate].
    subst ps. f_equal. apply bool_decide_eq_true. left.
Qed.

Lemma chatIncludesConcierge_spec_witness :
  chatIncludesConcierge Sample.CONST (Sample.report 1 PUndefined None) = PUndefined
  /\ chatIncludesConcierge Sample.CONST
       (Sample.with_participants (Sample.report 1 PUndefined None)
          ["concierge@expensify.com"]) = PBool true.
Proof.
  split.
  - apply (proj1 (proj2 (chatIncludesConcierge_spec Sample.CONST _))).
    reflexivity.
  - apply (proj2 (proj2 (chatIncludesConcierge_spec Sample.CONST _))).
    reflexivity.
Defined.

(** X7. When Concierge is one of the Expensify e-mails, the local time of
    the recipient is never shown for a chat that includes Concierge:
    [canShowReportRecipientLocalTime] is [false], whatever the personal
    details. *)
Theorem concierge_chat_no_local_time (CONST : Constants)
    (personalDetails : gmap string PersonalDetails) (report : Report) :
  EMAIL_CONCIERGE CONST ∈ EXPENSIFY_EMAILS CONST ->
  truthy (chatIncludesConcierge CONST report) = true ->
  canShowReportRecipientLocalTime CONST personalDetails report = PBool false.
Proof.
  intros Hexp Hinc.
  apply chatIncludesConcierge_truthy in Hinc as (ps & Hps & Hin).
  unfold canShowReportRecipientLocalTime. rewrite Hps. simpl.
  assert (hasExpensifyEmails CONST ps = true) as ->.
  { apply hasExpensifyEmails_true. eauto. }
  reflexivity.
Qed.

Lemma concierge_chat_no_local_time_witness :
  canShowReportRecipientLocalTime Sample.CONST
    {[ "concierge@expensify.com"
         := {| timezone := Some {| selected := PBool true |} |} ]}
    (Sample.with_participants (Sample.report 1 PUndefined None)
       ["concierge@expensify.com"]) = PBool false.
Proof.
  apply (concierge_chat_no_local_time Sample.CONST).
  - unfold Sample.CONST; simpl. left.
  - reflexivity.
Defined.

(** X8. What [canShowReportRecipientLocalTime] hands back when the time is
    not shown: [false] when a participant is an Expensify e-mail or there
    are several participants, and [undefined] when neither is the case and
    the personal details have nothing under the first participant (under
    ["undefined"] for a report without participants). *)
Theorem canShowReportRecipientLocalTime_not_shown (CONST : Constants)
    (personalDetails : gmap string PersonalDetails) (report : Report) :
  (hasExpensifyEmails CONST (default [] (participants report)) = true ->
   canShowReportRecipientLocalTime CONST personalDetails report = PBool false)
  /\ ((1 < length (default [] (participants report)))%nat ->
      canShowReportRecipientLocalTime CONST personalDetails report = PBool false)
  /\ (hasExpensifyEmails CONST (default [] (participants report)) = false ->
      (length (default [] (participants report)) <= 1)%nat ->
      personalDetails !! toString (default [] (participants report) !! 0%nat)
      = None ->
      canShowReportRecipientLocalTime CONST personalDetails report = PUndefined).
Proof.
  unfold canShowReportRecipientLocalTime. split; [| split].
  - intros ->. reflexivity.
  - intros Hlen. apply Nat.ltb_lt in Hlen. rewrite Hlen.
    destruct (hasExpensifyEmails CONST _); reflexivity.
  - intros -> Hlen ->. apply Nat.ltb_ge in Hlen. rewrite Hlen. reflexivity.
Qed.

Lemma canShowReportRecipientLocalTime_not_shown_witness :
  canShowReportRecipientLocalTime Sample.CONST Sample.profile_without_timezone
    (Sample.with_participants (Sample.report 1 PUndefined None)
       ["a@example.com"; "b@example.com"]) = PBool false
  /\ canShowReportRecipientLocalTime Sample.CONST Sample.profile_without_timezone
       (Sample.report 1 PUndefined None) = PUndefined.
Proof.
  split.
  - apply (proj1 (proj2 (canShowReportRecipientLocalTime_not_shown
             Sample.CONST Sample.profile_without_timezone _))).
    simpl. lia.
  - apply (proj2 (proj2 (canShowReportRecipientLocalTime_not_shown
             Sample.CONST Sample.profile_without_timezone _)));
      [reflexivity | simpl; lia | reflexivity].
Defined.

(** ** Rooms *)

(** X9. Admin rooms and announce rooms are default rooms, and default rooms
    and user-created policy rooms are chat rooms: a report is a chat room
    exactly when its chat type (the empty string when absent) is one of
    policy-room, policy-admins, policy-announce and domain-all.  With five
    different chat types, a chat room is no policy-expense chat. *)
Theorem isChatRoom_kinds (CONST : Constants) (report : Report) :
  (isAdminRoom CONST report = true \/ isAnnounceRoom CONST report = true ->
   isDefaultRoom CONST report = true)
  /\ (isDefaultRoom CONST report = true \/ isUserCreatedPolicyRoom CONST report = true ->
      isChatRoom CONST report = true)
  /\ (isChatRoom CONST report = true <->
      or_default (chatType report) (PStr "")
      ∈ [ PStr (REPORT_CHAT_TYPE_POLICY_ROOM CONST);
          PStr (REPORT_CHAT_TYPE_POLICY_ADMINS CONST);
          PStr (REPORT_CHAT_TYPE_POLICY_ANNOUNCE CONST);
          PStr (REPORT_CHAT_TYPE_DOMAIN_ALL CONST) ])
  /\ (NoDup (chat_types CONST) -> isChatRoom CONST report = true ->
      isPolicyExpenseChat CONST report = false).
Proof.
  split; [| split; [| split]].
  - rewrite isDefaultRoom_true. tauto.
  - unfold isChatRoom. intros [-> | ->]; [apply orb_true_r | reflexivity].
  - unfold isChatRoom, isUserCreatedPolicyRoom, isDefaultRoom, contains, strict_eq.
    rewrite orb_true_iff, !bool_decide_eq_true. set_solver.
  - intros Hnd.
    destruct (chat_types_NoDup_ne CONST Hnd)
      as (? & ? & ? & ? & ? & ? & ? & ? & ? & ?).
    unfold isChatRoom, isUserCreatedPolicyRoom, isDefaultRoom,
      isPolicyExpenseChat, contains, strict_eq.
    rewrite orb_true_iff, !bool_decide_eq_true, bool_decide_eq_false.
    intros [Hc | Hc].
    + rewrite Hc. congruence.
    + rewrite !elem_of_cons, elem_of_nil in Hc.
      destruct Hc as [Hc | [Hc | [Hc | []]]]; rewrite Hc; congruence.
Qed.

Lemma isChatRoom_kinds_witness :
  isChatRoom Sample.CONST (Sample.report 1 (PStr "policyAnnounce") None) = true
  /\ isPolicyExpenseChat Sample.CONST
       (Sample.report 1 (PStr "policyAnnounce") None) = false.
Proof.
  assert (Hchat : isChatRoom Sample.CONST
                    (Sample.report 1 (PStr "policyAnnounce") None) = true).
  { apply (proj1 (proj2 (isChatRoom_kinds Sample.CONST _))). left.
    apply (proj1 (isChatRoom_kinds Sample.CONST _)). right. reflexivity. }
  split; [exact Hchat |].
  apply (proj2 (proj2 (proj2 (isChatRoom_kinds Sample.CONST _))));
    [| exact Hchat].
  unfold chat_types; simpl.
  repeat (apply NoDup_cons; split; [set_solver |]). apply NoDup_nil_2.
Defined.

(** ** The title of the participants *)

Lemma append_assoc (s1 s2 s3 : string) :
  String.append (String.append s1 s2) s3 = String.append s1 (String.append s2 s3).
Proof.
  induction s1 as [|c s1 IH]; [reflexivity |].
  change (String c (String.append (String.append s1 s2) s3)
          = String c (String.append s1 (String.append s2 s3))).
  rewrite IH. reflexivity.
Qed.

Lemma join_app (sep : string) (l1 l2 : list string) :
  l1 ≠ [] -> l2 ≠ [] ->
  join sep (l1 ++ l2)
  = String.append (join sep l1) (String.append sep (join sep l2)).
Proof.
  intros Hl1 Hl2. induction l1 as [|s [|s' l1] IH]; [congruence | |].
  - destruct l2; [congruence | reflexivity].
  - change (String.append s (String.append sep (join sep ((s' :: l1) ++ l2)))
            = String.append
                (String.append s (String.append sep (join sep (s' :: l1))))
                (String.append sep (join sep l2))).
    rewrite IH by discriminate. rewrite !append_assoc. reflexivity.
Qed.

(** X10. [getReportParticipantsTitle] is empty for no login, is the login
    without its SMS domain for a single login, and for two lists of logins
    put together, neither empty, it is the two titles with [", "]
    between. *)
Theorem getReportParticipantsTitle_app (removeSMSDomain : string -> string)
    (logins more : list string) :
  getReportParticipantsTitle removeSMSDomain [] = ""
  /\ (forall login,
      getReportParticipantsTitle removeSMSDomain [login] = removeSMSDomain login)
  /\ (logins ≠ [] -> more ≠ [] ->
      getReportParticipantsTitle removeSMSDomain (logins ++ more)
      = String.append (getReportParticipantsTitle removeSMSDomain logins)
          (String.append ", " (getReportParticipantsTitle removeSMSDomain more))).
Proof.
  split; [reflexivity |]. split; [reflexivity |].
  intros Hl Hm. unfold getReportParticipantsTitle.
  rewrite map_app. apply join_app.
  - destruct logins; [congruence | discriminate].
  - destruct more; [congruence | discriminate].
Qed.

Lemma getReportParticipantsTitle_app_witness :
  getReportParticipantsTitle (fun login => login) (["a"; "b"] ++ ["c"])
  = String.append (getReportParticipantsTitle (fun login => login) ["a"; "b"])
      (String.append ", " (getReportParticipantsTitle (fun login => login) ["c"])).
Proof.
  apply (proj2 (proj2 (getReportParticipantsTitle_app (fun login => login)
                         ["a"; "b"] ["c"]))); discriminate.
Defined.

(** ** The name of the policy *)

Lemma getChatRoomSubtitle_policy_name (CONST : Constants)
    (translateLocal : string -> option prim -> string)
    (report : Report) (policiesMap : gmap string Policy) :
  subtitle_names_policy CONST report ->
  getChatRoomSubtitle CONST translateLocal report policiesMap
  = Ok (policy_name policiesMap (policyID report)
          (PStr (translateLocal "workspace.common.unavailable" None))).
Proof.
  intros (Hroom & Hnd & Harch & Hown). unfold getChatRoomSubtitle.
  assert (negb (isDefaultRoom CONST report)
          && negb (isUserCreatedPolicyRoom CONST report)
          && negb (isPolicyExpenseChat CONST report) = false) as ->.
  { destruct Hroom as [-> | [-> | ->]]; simpl;
      rewrite ?andb_false_r; reflexivity. }
  unfold strict_eq. rewrite bool_decide_eq_false_2 by exact Hnd.
  rewrite Harch.
  assert (isPolicyExpenseChat CONST report
          && truthy (isOwnPolicyExpenseChat report) = false) as ->.
  { apply not_true_is_false. rewrite andb_true_iff. exact Hown. }
  reflexivity.
Qed.

Lemma policy_key_inj (id1 id2 : string) :
  String.append ONYXKEYS_COLLECTION_POLICY id1
  = String.append ONYXKEYS_COLLECTION_POLICY id2 ->
  id1 = id2.
Proof.
  unfold ONYXKEYS_COLLECTION_POLICY. intros Heq.
  cbv [String.append] in Heq. congruence.
Qed.

Lemma default_room_names_policy (CONST : Constants) (report : Report) :
  NoDup (chat_types CONST) ->
  isAdminRoom CONST report = true \/ isAnnounceRoom CONST report = true ->
  isArchivedRoom CONST report = false ->
  subtitle_names_policy CONST report.
Proof.
  intros Hnd Hkind Harch.
  destruct (chat_types_NoDup_ne CONST Hnd)
    as (? & ? & ? & ? & ? & ? & ? & ? & ? & ?).
  assert (Hc : or_default (chatType report) (PStr "")
               = PStr (REPORT_CHAT_TYPE_POLICY_ADMINS CONST)
               \/ or_default (chatType report) (PStr "")
                  = PStr (REPORT_CHAT_TYPE_POLICY_ANNOUNCE CONST)).
  { revert Hkind. unfold isAdminRoom, isAnnounceRoom, strict_eq.
    rewrite !bool_decide_eq_true. tauto. }
  split; [| split; [| split]].
  - left. apply isDefaultRoom_true. tauto.
  - unfold is_domain_all. intros Hd. rewrite Hd in Hc. simpl in Hc.
    destruct Hc; congruence.
  - exact Harch.
  - intros [He _]. revert He. unfold isPolicyExpenseChat, strict_eq.
    rewrite bool_decide_eq_true. destruct Hc as [-> | ->]; congruence.
Qed.

(** X11. The workspace name in the welcome message of an admin or announce
    room is the subtitle of the room.  With five different chat types and
    the room not archived, [getChatRoomSubtitle] returns a name, and
    [getRoomWelcomeMessage] puts that name into the first phrase of an
    admin room and into both phrases of an announce room.  For every other
    report the welcome message is that of a user room, and the policies
    play no role. *)
Theorem getRoomWelcomeMessage_workspaceName (CONST : Constants)
    (translateLocal : string -> option prim -> string)
    (report : Report) (policiesMap : gmap string Policy) :
  (NoDup (chat_types CONST) -> isArchivedRoom CONST report = false ->
   isAdminRoom CONST report = true ->
   exists workspaceName,
     getChatRoomSubtitle CONST translateLocal report policiesMap = Ok workspaceName
     /\ getRoomWelcomeMessage CONST translateLocal report policiesMap
        = {| phrase1 := translateLocal
               "reportActionsView.beginningOfChatHistoryAdminRoomPartOne"
               (Some workspaceName);
             phrase2 := translateLocal
               "reportActionsView.beginningOfChatHistoryAdminRoomPartTwo" None |})
  /\ (NoDup (chat_types CONST) -> isArchivedRoom CONST report = false ->
      isAnnounceRoom CONST report = true ->
      exists workspaceName,
        getChatRoomSubtitle CONST translateLocal report policiesMap = Ok workspaceName
        /\ getRoomWelcomeMessage CONST translateLocal report policiesMap
           = {| phrase1 := translateLocal
                  "reportActionsView.beginningOfChatHistoryAnnounceRoomPartOne"
                  (Some workspaceName);
                phrase2 := translateLocal
                  "reportActionsView.beginningOfChatHistoryAnnounceRoomPartTwo"
                  (Some workspaceName) |})
  /\ (isAdminRoom CONST report = false -> isAnnounceRoom CONST report = false ->
      getRoomWelcomeMessage CONST translateLocal report policiesMap
      = {| phrase1 := translateLocal
             "reportActionsView.beginningOfChatHistoryUserRoomPartOne" None;
           phrase2 := translateLocal
             "reportActionsView.beginningOfChatHistoryUserRoomPartTwo" None |}).
Proof.
  split; [| split].
  - intros Hnd Harch Hadmin. eexists. split.
    + apply getChatRoomSubtitle_policy_name, default_room_names_policy; auto.
    + unfold getRoomWelcomeMessage. rewrite Hadmin. reflexivity.
  - intros Hnd Harch Hann. eexists. split.
    + apply getChatRoomSubtitle_policy_name, default_room_names_policy; auto.
    + unfold getRoomWelcomeMessage. rewrite Hann.
      assert (isAdminRoom CONST report = false) as ->; [| reflexivity].
      destruct (chat_types_NoDup_ne CONST Hnd) as (Hne & _).
      revert Hann. unfold isAdminRoom, isAnnounceRoom, strict_eq.
      rewrite bool_decide_eq_true, bool_decide_eq_false. intros ->. congruence.
  - intros Hadmin Hann. unfold getRoomWelcomeMessage.
    rewrite Hadmin, Hann. reflexivity.
Qed.

Lemma getRoomWelcomeMessage_workspaceName_witness :
  (exists workspaceName,
     getChatRoomSubtitle Sample.CONST Sample.translateLocal
       (Sample.room "policyAdmins" "#admins" "Old" 0 0 false "P1")
       {[ "policy_P1" := {| name := PStr "Acme Inc" |} ]} = Ok workspaceName
     /\ getRoomWelcomeMessage Sample.CONST Sample.translateLocal
          (Sample.room "policyAdmins" "#admins" "Old" 0 0 false "P1")
          {[ "policy_P1" := {| name := PStr "Acme Inc" |} ]}
        = {| phrase1 := Sample.translateLocal
               "reportActionsView.beginningOfChatHistoryAdminRoomPartOne"
               (Some workspaceName);
             phrase2 := Sample.translateLocal
               "reportActionsView.beginningOfChatHistoryAdminRoomPartTwo" None |})
  /\ getRoomWelcomeMessage Sample.CONST Sample.translateLocal
       (Sample.report 1 PUndefined None) ∅
     = {| phrase1 := "reportActionsView.beginningOfChatHistoryUserRoomPartOne";
          phrase2 := "reportActionsView.beginningOfChatHistoryUserRoomPartTwo" |}.
Proof.
  split.
  - apply (proj1 (getRoomWelcomeMessage_workspaceName Sample.CONST
             Sample.translateLocal _ _)); [| reflexivity | reflexivity].
    unfold chat_types; simpl.
    repeat (apply NoDup_cons; split; [set_solver |]). apply NoDup_nil_2.
  - apply (proj2 (proj2 (getRoomWelcomeMessage_workspaceName Sample.CONST
             Sample.translateLocal _ _))); reflexivity.
Defined.

(** X12. The subtitle follows the policy map.  For a report whose subtitle
    is the name of its policy and whose [policyID] is [id]: once a policy
    named [n], a string, is stored under [policy_<id>] the subtitle is [n];
    once the entry is deleted the subtitle is the unavailable label; and
    storing a policy under another identifier leaves the subtitle as it
    is. *)
Theorem getChatRoomSubtitle_policy_update (CONST : Constants)
    (translateLocal : string -> option prim -> string)
    (report : Report) (policiesMap : gmap string Policy) (id : string) :
  subtitle_names_policy CONST report ->
  policyID report = Some id ->
  (forall n : string,
   getChatRoomSubtitle CONST translateLocal report
     (<[String.append "policy_" id := {| name := PStr n |}]> policiesMap)
   = Ok (PStr n))
  /\ getChatRoomSubtitle CONST translateLocal report
       (delete (String.append "policy_" id) policiesMap)
     = Ok (PStr (translateLocal "workspace.common.unavailable" None))
  /\ (forall (other : string) (policy : Policy), other ≠ id ->
      getChatRoomSubtitle CONST translateLocal report
        (<[String.append "policy_" other := policy]> policiesMap)
      = getChatRoomSubtitle CONST translateLocal report policiesMap).
Proof.
  intros Hnames Hid.
  fold ONYXKEYS_COLLECTION_POLICY.
  split; [| split]; [intros n | | intros other policy Hne];
    rewrite !(getChatRoomSubtitle_policy_name CONST translateLocal report)
      by exact Hnames;
    unfold policy_name; rewrite Hid; simpl toString.
  - rewrite lookup_insert_eq. reflexivity.
  - rewrite lookup_delete_eq. reflexivity.
  - rewrite lookup_insert_ne; [reflexivity |].
    intros Heq. apply Hne. apply policy_key_inj. exact Heq.
Qed.

Lemma getChatRoomSubtitle_policy_update_witness :
  getChatRoomSubtitle Sample.CONST Sample.translateLocal
    (Sample.room "policyRoom" "#room" "" 0 0 false "P1")
    (<[String.append "policy_" "P1" := {| name := PStr "Acme Inc" |}]> ∅)
  = Ok (PStr "Acme Inc").
Proof.
  apply (proj1 (getChatRoomSubtitle_policy_update Sample.CONST
           Sample.translateLocal
           (Sample.room "policyRoom" "#room" "" 0 0 false "P1") ∅ "P1"
           ltac:(unfold subtitle_names_policy, is_domain_all;
                 split; [right; left; reflexivity
                        | split; [discriminate
                                 | split; [reflexivity
                                          | intros [? _]; discriminate]]])
           eq_refl)).
Defined.

(** ** Sorting what is sorted *)

Lemma timestamp_le_lt_eq (a b : option Z) :
  timestamp_le a b -> timestamp_lt a b \/ a = b.
Proof.
  unfold timestamp_le, timestamp_lt. destruct a as [x|], b as [y|]; try tauto.
  intros Hle. destruct (Z.eq_dec x y) as [-> | Hne]; [tauto | left; lia].
Qed.

Lemma decorate_Sorted {A} (iteratee : A -> option Z) (i : nat) (obj : list A) :
  StronglySorted (fun v1 v2 => timestamp_le (iteratee v1) (iteratee v2)) obj ->
  Sorted comparator_le (decorate iteratee i obj).
Proof.
  intros Hs. revert i. induction Hs as [|v obj Hobj IH Hv]; intros i; simpl.
  - constructor.
  - constructor; [apply IH |].
    destruct obj as [|v' obj']; simpl; constructor.
    apply comparator_le_iff. unfold criteria_index_le. simpl.
    apply Forall_cons in Hv as [Hv _].
    destruct (timestamp_le_lt_eq _ _ Hv) as [Hlt | Heq]; [tauto |].
    right. split; [exact Heq | lia].
Qed.

Lemma sortBy_sorted {A} (iteratee : A -> option Z) (obj : list A) :
  StronglySorted (fun v1 v2 => timestamp_le (iteratee v1) (iteratee v2)) obj ->
  sortBy iteratee obj = obj.
Proof.
  intros Hs. unfold sortBy.
  rewrite <- (Array_sort_unique iteratee 0 obj (decorate iteratee 0 obj)).
  - apply decorate_value.
  - reflexivity.
  - apply decorate_Sorted, Hs.
Qed.

Lemma filter_has_reportID_elem_of (reports : list entry) (r : Report) :
  r ∈ filter_has_reportID reports <->
  Some r ∈ reports /\ truthy (reportID r) = true.
Proof.
  induction reports as [|[r'|] reports IH]; simpl.
  - rewrite !elem_of_nil. tauto.
  - destruct (truthy (reportID r')) eqn:Hid;
      rewrite ?elem_of_cons, IH, ?elem_of_cons.
    + split; [intros [-> | [? ?]]; auto | intros [[[= ->] | ?] ?]; auto].
    + split; [tauto | intros [[[= ->] | ?] ?]; [congruence | auto]].
  - rewrite IH, elem_of_cons. split; [tauto | intros [[? | ?] ?]; [discriminate | auto]].
Qed.

Lemma filter_has_reportID_all (reports : list Report) :
  Forall (fun r => truthy (reportID r) = true) reports ->
  filter_has_reportID (Some <$> reports) = reports.
Proof.
  induction 1 as [|r reports Hr _ IH]; csimpl; [reflexivity |].
  rewrite Hr, IH. reflexivity.
Qed.

Lemma sortReportsByLastVisited_elem_of (reports : collection entry) (r : Report) :
  r ∈ sortReportsByLastVisited reports <->
  Some r ∈ toArray reports /\ truthy (reportID r) = true.
Proof.
  unfold sortReportsByLastVisited.
  rewrite sortBy_Permutation. apply filter_has_reportID_elem_of.
Qed.

(** X13. Sorting the sorted reports again changes nothing:
    [sortReportsByLastVisited] of its own result is that result.  Every
    report of the result has a truthy [reportID], and the result is no
    longer than the collection. *)
Theorem sortReportsByLastVisited_idempotent (reports : collection entry) :
  sortReportsByLastVisited (Array (Some <$> sortReportsByLastVisited reports))
  = sortReportsByLastVisited reports
  /\ Forall (fun r => truthy (reportID r) = true) (sortReportsByLastVisited reports)
  /\ (length (sortReportsByLastVisited reports) <= length (toArray reports))%nat.
Proof.
  assert (Hall : Forall (fun r => truthy (reportID r) = true)
                   (sortReportsByLastVisited reports)).
  { apply Forall_forall. intros r Hr.
    apply sortReportsByLastVisited_elem_of in Hr. tauto. }
  split; [| split; [exact Hall |]].
  - unfold sortReportsByLastVisited at 1. simpl toArray.
    rewrite filter_has_reportID_all by exact Hall.
    apply sortBy_sorted. apply (sortBy_StronglySorted lastVisitedTimestamp).
  - unfold sortReportsByLastVisited. rewrite sortBy_Permutation.
    rewrite <- (length_fmap Some), filter_has_reportID_valid.
    apply filter_length_le.
Qed.

(** ** Choosing the last accessed report *)

Lemma last_filter {A} (p : A -> bool) (l : list A) (x : A) :
  last l = Some x -> p x = true -> last (List.filter p l) = Some x.
Proof.
  intros Hlast Hp. apply last_Some in Hlast as [l' ->].
  rewrite List.filter_app. simpl. rewrite Hp. apply last_snoc.
Qed.

Lemma reports_left_elem_of (CONST : Constants) (reports : collection entry)
    (ignoreDefaultRooms : prim) (r : Report) :
  r ∈ reports_left CONST reports ignoreDefaultRooms <->
  Some r ∈ toArray reports
  /\ truthy (reportID r) = true
  /\ (truthy ignoreDefaultRooms = true -> isDefaultRoom CONST r = false).
Proof.
  unfold reports_left.
  rewrite list_elem_of_In, filter_In, <- list_elem_of_In,
    sortReportsByLastVisited_elem_of, negb_true_iff, andb_false_iff.
  destruct (truthy ignoreDefaultRooms); intuition congruence.
Qed.

(** X14. [findLastAccessedReport] finds a report exactly when the
    collection has an entry that is a report with a truthy [reportID] and,
    if default rooms are to be ignored, is not a default room.  The report
    found is such an entry. *)
Theorem findLastAccessedReport_finds (CONST : Constants)
    (reports : collection entry) (ignoreDefaultRooms : prim) :
  (is_Some (findLastAccessedReport CONST reports ignoreDefaultRooms) <->
   exists r, Some r ∈ toArray reports
             /\ truthy (reportID r) = true
             /\ (truthy ignoreDefaultRooms = true -> isDefaultRoom CONST r = false))
  /\ (forall r, findLastAccessedReport CONST reports ignoreDefaultRooms = Some r ->
      Some r ∈ toArray reports /\ truthy (reportID r) = true).
Proof.
  rewrite findLastAccessedReport_last. split.
  - split.
    + intros [r Hr]. exists r.
      apply reports_left_elem_of, last_Some_elem_of, Hr.
    + intros (r & Hr). apply reports_left_elem_of in Hr.
      destruct (last (reports_left CONST reports ignoreDefaultRooms)) eqn:Hlast;
        [eauto |].
      apply last_None in Hlast. rewrite Hlast in Hr. inversion Hr.
  - intros r Hr. apply last_Some_elem_of, reports_left_elem_of in Hr. tauto.
Qed.

Lemma findLastAccessedReport_finds_witness :
  is_Some (findLastAccessedReport Sample.CONST
             (Object [ ("report_1", Some (Sample.report 1 (PStr "policyAdmins") (Some 9)));
                       ("report_2", Some (Sample.report 2 PUndefined None)) ])
             (PBool true)).
Proof.
  apply (proj1 (findLastAccessedReport_finds Sample.CONST _ (PBool true))).
  exists (Sample.report 2 PUndefined None).
  split; [simpl; set_solver |]. split; reflexivity.
Defined.

(** X15. Ignoring the default rooms matters only when the last accessed
    report is one.  If the report found without ignoring them is not a
    default room, the same report is found whatever the flag; and whenever
    a report is found ignoring them, one is found without, visited at least
    as late. *)
Theorem findLastAccessedReport_ignoreDefaultRooms (CONST : Constants)
    (reports : collection entry) (off on : prim) :
  truthy off = false ->
  (forall r, findLastAccessedReport CONST reports off = Some r ->
   isDefaultRoom CONST r = false ->
   findLastAccessedReport CONST reports on = Some r)
  /\ (forall r, findLastAccessedReport CONST reports on = Some r ->
      exists r', findLastAccessedReport CONST reports off = Some r'
                 /\ visited_le r r').
Proof.
  intros Hoff.
  assert (Hall : reports_left CONST reports off = sortReportsByLastVisited reports).
  { unfold reports_left. rewrite Hoff. simpl.
    induction (sortReportsByLastVisited reports) as [|r l IH]; simpl; congruence. }
  rewrite !findLastAccessedReport_last, Hall. split.
  - intros r Hlast Hroom. unfold reports_left.
    apply last_filter; [exact Hlast |]. rewrite Hroom, andb_false_r.
    reflexivity.
  - intros r Hlast.
    assert (Hin : r ∈ sortReportsByLastVisited reports).
    { apply last_Some_elem_of in Hlast. unfold reports_left in Hlast.
      apply list_elem_of_In, filter_In in Hlast as [Hin _].
      apply list_elem_of_In, Hin. }
    destruct (last (sortReportsByLastVisited reports)) as [r'|] eqn:Hlast'.
    + exists r'. split; [reflexivity |].
      apply (StronglySorted_last visited_le (sortReportsByLastVisited reports));
        [| exact Hlast' | exact Hin].
      apply (sortBy_StronglySorted lastVisitedTimestamp).
    + apply last_None in Hlast'. rewrite Hlast' in Hin. inversion Hin.
Qed.

Lemma findLastAccessedReport_ignoreDefaultRooms_witness :
  findLastAccessedReport Sample.CONST
    (Array [ Some (Sample.report 1 (PStr "policyAdmins") (Some 5));
             Some (Sample.report 2 PUndefined (Some 9)) ]) (PBool true)
  = Some (Sample.report 2 PUndefined (Some 9)).
Proof.
  apply (proj1 (findLastAccessedReport_ignoreDefaultRooms Sample.CONST
           (Array [ Some (Sample.report 1 (PStr "policyAdmins") (Some 5));
                    Some (Sample.report 2 PUndefined (Some 9)) ])
           PUndefined (PBool true) eq_refl)); reflexivity.
Defined.

(** X16. Reports that are already in the order of their last visit, each
    with a truthy [reportID], come back from [sortReportsByLastVisited] as
    they are; so do, in particular, reports that were all visited at the
    same time. *)
Theorem sortReportsByLastVisited_sorted (reports : list Report) :
  Forall (fun r => truthy (reportID r) = true) reports ->
  StronglySorted visited_le reports ->
  sortReportsByLastVisited (Array (Some <$> reports)) = reports.
Proof.
  intros Hall Hsorted. unfold sortReportsByLastVisited. simpl toArray.
  rewrite filter_has_reportID_all by exact Hall.
  apply sortBy_sorted, Hsorted.
Qed.

Lemma sortReportsByLastVisited_sorted_witness :
  sortReportsByLastVisited
    (Array (Some <$> [ Sample.report 3 PUndefined (Some 4);
                       Sample.report 1 PUndefined (Some 4);
                       Sample.report 2 PUndefined None ]))
  = [ Sample.report 3 PUndefined (Some 4);
      Sample.report 1 PUndefined (Some 4);
      Sample.report 2 PUndefined None ].
Proof.
  apply sortReportsByLastVisited_sorted.
  - repeat constructor.
  - repeat constructor; unfold visited_le; simpl; lia.
Defined.

(** ** What the permission checks hand back *)

Lemma canDeleteReportAction_value (CONST : Constants) (sessionEmail : prim)
    (reportAction : ReportAction) :
  canDeleteReportAction CONST sessionEmail reportAction
  = if strict_eq (actorEmail reportAction) sessionEmail
    then if truthy (reportActionID reportAction)
         then PBool (strict_eq (actionName reportAction)
                       (PStr (REPORT_ACTIONS_TYPE_ADDCOMMENT CONST)))
         else reportActionID reportAction
    else PBool false.
Proof.
  unfold canDeleteReportAction, and_.
  destruct (strict_eq (actorEmail reportAction) sessionEmail); simpl;
    [| reflexivity].
  destruct (truthy (reportActionID reportAction)); reflexivity.
Qed.

(** X17. [canEditReportAction] and [canDeleteReportAction] hand back [true]
    when they allow the action.  When they do not, they hand back [false]
    if the actor is not the session user, but the [reportActionID] itself,
    [undefined] for an optimistic action, if the actor is the session user
    and the identifier is falsy. *)
Theorem canEditReportAction_value (CONST : Constants) (sessionEmail : prim)
    (reportAction : ReportAction) :
  (truthy (canEditReportAction CONST sessionEmail reportAction) = true ->
   canEditReportAction CONST sessionEmail reportAction = PBool true)
  /\ (truthy (canDeleteReportAction CONST sessionEmail reportAction) = true ->
      canDeleteReportAction CONST sessionEmail reportAction = PBool true)
  /\ (actorEmail reportAction ≠ sessionEmail ->
      canEditReportAction CONST sessionEmail reportAction = PBool false
      /\ canDeleteReportAction CONST sessionEmail reportAction = PBool false)
  /\ (actorEmail reportAction = sessionEmail ->
      truthy (reportActionID reportAction) = false ->
      canEditReportAction CONST sessionEmail reportAction
      = reportActionID reportAction
      /\ canDeleteReportAction CONST sessionEmail reportAction
         = reportActionID reportAction).
Proof.
  rewrite canEdit_canDelete, canDeleteReportAction_value.
  unfold and_, strict_eq.
  split; [| split; [| split]].
  - repeat case_bool_decide; simpl;
      destruct (truthy (reportActionID reportAction)) eqn:Hid; simpl;
      rewrite ?Hid; simpl; try discriminate;
      destruct (isReportMessageAttachment _); simpl; congruence.
  - repeat case_bool_decide; simpl;
      destruct (truthy (reportActionID reportAction)) eqn:Hid; simpl;
      congruence.
  - intros Hne. rewrite bool_decide_eq_false_2 by exact Hne. simpl. auto.
  - intros Heq Hid. rewrite bool_decide_eq_true_2 by exact Heq.
    rewrite Hid. simpl. rewrite Hid. auto.
Qed.

Lemma canEditReportAction_value_witness :
  canEditReportAction Sample.CONST (PStr "me@example.com")
    (Sample.comment "me@example.com" PUndefined None) = PUndefined
  /\ canDeleteReportAction Sample.CONST (PStr "me@example.com")
       (Sample.comment "me@example.com" (PStr "") None) = PStr ""
  /\ canEditReportAction Sample.CONST (PStr "me@example.com")
       (Sample.comment "you@example.com" (PStr "42") None) = PBool false.
Proof.
  split; [| split].
  - apply (proj2 (proj2 (proj2 (canEditReportAction_value Sample.CONST
             (PStr "me@example.com")
             (Sample.comment "me@example.com" PUndefined None)))));
      reflexivity.
  - apply (proj2 (proj2 (proj2 (canEditReportAction_value Sample.CONST
             (PStr "me@example.com")
             (Sample.comment "me@example.com" (PStr "") None)))));
      reflexivity.
  - apply (proj1 (proj2 (proj2 (canEditReportAction_value Sample.CONST
             (PStr "me@example.com")
             (Sample.comment "you@example.com" (PStr "42") None))))).
    discriminate.
Defined.

(** ** The session *)

(** X18. The permission checks follow the session the store reported last.
    After a session with e-mail [e], a comment with a [reportActionID] can
    be deleted exactly by the actor [e].  After the report of no session the
    cache is [null], and no action whose [actorEmail] is not [null] can be
    edited or deleted. *)
Theorem session_decides_permissions (CONST : Constants) (reportAction : ReportAction) :
  (forall session,
   truthy (canDeleteReportAction CONST (SessionCache.callback (Some session))
             reportAction) = true <->
   actorEmail reportAction = email session
   /\ truthy (reportActionID reportAction) = true
   /\ actionName reportAction = PStr (REPORT_ACTIONS_TYPE_ADDCOMMENT CONST))
  /\ (actorEmail reportAction ≠ PNull ->
      canEditReportAction CONST (SessionCache.callback None) reportAction
      = PBool false
      /\ canDeleteReportAction CONST (SessionCache.callback None) reportAction
         = PBool false).
Proof.
  split.
  - intros session. apply canDeleteReportAction_truthy.
  - intros Hactor. simpl SessionCache.callback.
    rewrite canEdit_canDelete, canDeleteReportAction_value.
    unfold strict_eq. rewrite bool_decide_eq_false_2 by exact Hactor.
    split; reflexivity.
Qed.

Lemma session_decides_permissions_witness :
  canEditReportAction Sample.CONST (SessionCache.callback None)
    (Sample.comment "me@example.com" (PStr "42") None) = PBool false
  /\ canDeleteReportAction Sample.CONST (SessionCache.callback None)
       (Sample.comment "me@example.com" (PStr "42") None) = PBool false.
Proof.
  apply (proj2 (session_decides_permissions Sample.CONST
                  (Sample.comment "me@example.com" (PStr "42") None))).
  discriminate.
Defined.
